(** * CPU-aware execution governor: [cpu_manager.py]

    A shallow embedding of [CPUManager] (the resource governor) and
    [ProcessThrottler] (the concurrency limiter), and the properties of
    their sampling loop, wait primitive, admission predicate, process
    counter and batch runner.

    Conventions.
    - Python [float] is IEEE binary64: Rocq's primitive [float], with the
      comparisons and arithmetic of [PrimFloat].
    - Python [int] is unbounded: [Z]; [//] by a positive divisor is [Z.div].
    - A Python call that may raise returns an [outcome]; a loop that may
      never finish takes fuel and answers [Blocked] when the fuel is spent.
    - What lies outside the calling thread (the clock, the logger, the
      monitor thread writing the shared [CPUManager]) is a world [W]
      reached through the operations of a [Runtime]. *)

From Stdlib Require Import ZArith List Bool Lia Floats.
Import ListNotations.

Set Warnings "-inexact-float".

(* ===================================================================== *)
(** ** Python floats *)
(* ===================================================================== *)

Module PyFloat.

Local Open Scope float_scope.

(** [x >= y] and [x > y] as Python evaluates them (false on a NaN). *)
Definition ge (x y : float) : bool := y <=? x.
Definition gt (x y : float) : bool := y <? x.
Definition lt (x y : float) : bool := x <? y.

(** [bool(x)]: a float is falsy exactly when it equals zero. *)
Definition truthy (x : float) : bool := negb (x =? 0).

End PyFloat.

(* ===================================================================== *)
(** ** Exceptions and outcomes *)
(* ===================================================================== *)

(** The exceptions that matter here: what [psutil] raises when the OS
    interface fails, the two built-in errors the interpreter raises on
    a bad operand, and whatever a caller-supplied task raises (told
    apart by a code). *)
Inductive exception : Type :=
| PsutilError
| TypeError
| ValueError
| TaskError (code : Z).

(** How a call ends: it returns, it raises, or (fuel spent) it is still
    blocked in a loop. *)
Inductive outcome (A : Type) : Type :=
| Returned (a : A)
| Raised (e : exception)
| Blocked.
Arguments Returned {A} a.
Arguments Raised {A} e.
Arguments Blocked {A}.

(** The messages the module logs, with the numbers they carry. *)
Inductive log_record : Type :=
| CpuUsageHigh (usage : float)        (* warning: "CPU usage high: ...% - Throttling active" *)
| CpuUsageNormal (usage : float)      (* info: "CPU usage normal: ...% - Throttling disabled" *)
| WaitingForCpu (ceiling usage : float).
                                      (* info: "Waiting for CPU to drop below ...% (current: ...%)" *)

(* ===================================================================== *)
(** ** The governor's shared state *)
(* ===================================================================== *)

Record CPUManager : Type := mkCPUManager {
  max_cpu_percent : float;
  check_interval : float;
  monitoring : bool;
  current_cpu_usage : float;
  throttle_active : bool
}.

(** [CPUManager.__init__] *)
Definition CPUManager_init (max_cpu_percent check_interval : float) : CPUManager :=
  {| max_cpu_percent := max_cpu_percent;
     check_interval := check_interval;
     monitoring := false;
     current_cpu_usage := 0%float;
     throttle_active := false |}.

Definition set_monitoring (b : bool) (m : CPUManager) : CPUManager :=
  {| max_cpu_percent := max_cpu_percent m;
     check_interval := check_interval m;
     monitoring := b;
     current_cpu_usage := current_cpu_usage m;
     throttle_active := throttle_active m |}.

Definition set_current_cpu_usage (x : float) (m : CPUManager) : CPUManager :=
  {| max_cpu_percent := max_cpu_percent m;
     check_interval := check_interval m;
     monitoring := monitoring m;
     current_cpu_usage := x;
     throttle_active := throttle_active m |}.

Definition set_throttle_active (b : bool) (m : CPUManager) : CPUManager :=
  {| max_cpu_percent := max_cpu_percent m;
     check_interval := check_interval m;
     monitoring := monitoring m;
     current_cpu_usage := current_cpu_usage m;
     throttle_active := b |}.

(* ===================================================================== *)
(** ** The background sampling loop: [CPUManager._monitor_cpu] *)
(* ===================================================================== *)

Module Monitor.

(** What the monitor thread does to the outside, in order. *)
Inductive effect : Type :=
| Log (r : log_record)
| Sleep (seconds : float).           (* time.sleep(self.check_interval) *)

(** What the monitor thread meets, in order: the answer of one call of
    [psutil.cpu_percent(interval=1)], which is a reading or an
    exception, or another thread running the assignment
    [self.monitoring = False] of [stop_monitoring] before the next
    loop test. *)
Inductive input : Type :=
| CpuPercent (x : float)
| CpuPercentRaises (e : exception)
| StopMonitoring.

(** The loop body once [psutil.cpu_percent] has answered [x]
    (lines 56 to 66): store the reading, recompute the flag, log,
    sleep. *)
Definition iteration (x : float) (m : CPUManager) : CPUManager * list effect :=
  let m := set_current_cpu_usage x m in
  if PyFloat.ge (current_cpu_usage m) (max_cpu_percent m) then
    (set_throttle_active true m,
     [Log (CpuUsageHigh (current_cpu_usage m)); Sleep (check_interval m)])
  else
    (set_throttle_active false m,
     (if throttle_active m then [Log (CpuUsageNormal (current_cpu_usage m))] else [])
       ++ [Sleep (check_interval m)]).

(** How the thread stands when its inputs are used up. *)
Inductive status : Type :=
| Finished                   (* the loop test failed: normal exit *)
| Uncaught (e : exception)   (* an exception left the loop: the thread is dead *)
| Running.                   (* waiting for the next reading *)

Record run : Type := mkRun {
  exit : status;
  final : CPUManager;
  effects : list effect;
  (* the readings stored so far, each with the state right after its iteration *)
  stored : list (float * CPUManager)
}.

(** [while self.monitoring: ...] over the inputs met. There is no
    [try] in the loop: an exception of [psutil.cpu_percent] leaves
    it. *)
Fixpoint _monitor_cpu (inputs : list input) (m : CPUManager) : run :=
  if negb (monitoring m) then mkRun Finished m [] []
  else
    match inputs with
    | [] => mkRun Running m [] []
    | StopMonitoring :: rest => _monitor_cpu rest (set_monitoring false m)
    | CpuPercentRaises e :: _ => mkRun (Uncaught e) m [] []
    | CpuPercent x :: rest =>
        let '(m', fx) := iteration x m in
        let r := _monitor_cpu rest m' in
        mkRun (exit r) (final r) (fx ++ effects r) ((x, m') :: stored r)
    end.

Definition is_reading (i : input) : bool :=
  match i with CpuPercent _ => true | _ => false end.

(** The readings that [psutil] delivered, errors left out. *)
Definition readings (inputs : list input) : list float :=
  flat_map (fun i => match i with CpuPercent x => [x] | _ => [] end) inputs.

End Monitor.

(** [CPUManager.start_monitoring], as far as the shared state goes. *)
Definition start_monitoring (m : CPUManager) : CPUManager :=
  if negb (monitoring m) then set_monitoring true m else m.

(** The flag agrees with the stored reading. *)
Definition throttle_invariant (m : CPUManager) : Prop :=
  throttle_active m = PyFloat.ge (current_cpu_usage m) (max_cpu_percent m).

(* ===================================================================== *)
(** ** The calling thread and its world *)
(* ===================================================================== *)

(** What a caller of the governor reaches outside itself. [manager w] is
    the shared [CPUManager] as the caller reads it in [w]; the monitor
    thread and the clock move while the caller sleeps, logs or runs a
    task, so those take a world to the next one. *)
Class Runtime (W : Type) : Type := {
  manager : W -> CPUManager;
  time_time : W -> float;                  (* time.time() *)
  time_sleep : float -> W -> W;            (* time.sleep(seconds) *)
  logger_info : log_record -> W -> W       (* self.logger.info(...) *)
}.

(** A computation of the calling thread. *)
Definition M (W A : Type) : Type := W -> outcome A * W.

Definition ret {W A : Type} (a : A) : M W A := fun w => (Returned a, w).

Definition bind {W A B : Type} (c : M W A) (k : A -> M W B) : M W B :=
  fun w =>
    match c w with
    | (Returned a, w') => k a w'
    | (Raised e, w') => (Raised e, w')
    | (Blocked, w') => (Blocked, w')
    end.

Declare Scope py_scope.
Delimit Scope py_scope with py.
Notation "x <- c ;; k" := (bind c (fun x => k))
  (at level 61, c at next level, right associativity) : py_scope.
Notation "c ;;; k" := (bind c (fun _ => k))
  (at level 61, right associativity) : py_scope.

Section Governor.

Context {W : Type} {RT : Runtime W}.

Local Open Scope py_scope.

Definition sleep (seconds : float) : M W unit :=
  fun w => (Returned tt, time_sleep seconds w).

(** [excess = self.current_cpu_usage - self.max_cpu_percent] *)
Definition excess (m : CPUManager) : float :=
  (current_cpu_usage m - max_cpu_percent m)%float.

(** Lines 85 to 91 of [wait_for_cpu]: the progressive sleep. *)
Definition backoff_sleep_time (m : CPUManager) : float :=
  let excess := excess m in
  if PyFloat.gt excess 20 then 2.0%float
  else if PyFloat.gt excess 10 then 1.0%float
  else 0.5%float.

(** Line 81: [timeout and (time.time() - start_time) >= timeout].
    [None] is falsy, and so is a zero. *)
Definition timed_out (timeout : option float) (start_time : float) (w : W) : bool :=
  match timeout with
  | None => false
  | Some t => PyFloat.truthy t && PyFloat.ge (time_time w - start_time)%float t
  end.

(** One pass through the body of the wait loop that does not return:
    log, then sleep the backoff time. *)
Definition wait_pass (w : W) : W :=
  let sleep_time := backoff_sleep_time (manager w) in
  time_sleep sleep_time
    (logger_info (WaitingForCpu (max_cpu_percent (manager w))
                                (current_cpu_usage (manager w))) w).

(** [while self.throttle_active: ...]; the fuel bounds the passes. *)
Fixpoint wait_loop (fuel : nat) (timeout : option float) (start_time : float)
    (w : W) : outcome bool * W :=
  if throttle_active (manager w) then
    if timed_out timeout start_time w then (Returned false, w)
    else
      match fuel with
      | O => (Blocked, w)
      | S fuel' => wait_loop fuel' timeout start_time (wait_pass w)
      end
  else (Returned true, w).

(** The world after [k] passes of the wait loop. *)
Fixpoint after_passes (k : nat) (w : W) : W :=
  match k with
  | O => w
  | S k' => after_passes k' (wait_pass w)
  end.

(** Throttled and not timed out at each of the first [k] loop tests. *)
Definition held_back (timeout : option float) (start : float) (k : nat) (w : W) : Prop :=
  forall j, (j < k)%nat ->
    throttle_active (manager (after_passes j w)) = true
    /\ timed_out timeout start (after_passes j w) = false.

(** [CPUManager.wait_for_cpu] *)
Definition wait_for_cpu (fuel : nat) (timeout : option float) : M W bool :=
  fun w =>
    let start_time := time_time w in
    wait_loop fuel timeout start_time w.

(** [CPUManager.throttled_execute], for a [func] already applied to
    its arguments. *)
Definition throttled_execute {R : Type} (fuel : nat) (func : M W R) : M W R :=
  wait_for_cpu fuel None ;;;
  result <- func ;;
  sleep 0.1%float ;;;
  ret result.

(** The sleep [adaptive_sleep] chooses (lines 138 to 145). *)
Definition adaptive_sleep_time (base_sleep : float) (m : CPUManager) : float :=
  if PyFloat.gt (current_cpu_usage m) 90 then (base_sleep * 3)%float
  else if PyFloat.gt (current_cpu_usage m) 80 then (base_sleep * 2)%float
  else if PyFloat.gt (current_cpu_usage m) 70 then (base_sleep * 1.5)%float
  else base_sleep.

(** [CPUManager.adaptive_sleep] *)
Definition adaptive_sleep (base_sleep : float) : M W unit :=
  fun w => sleep (adaptive_sleep_time base_sleep (manager w)) w.

End Governor.

(* ===================================================================== *)
(** ** The concurrency limiter: [ProcessThrottler] *)
(* ===================================================================== *)

(** The throttler's own fields. Its [cpu_manager] field is a reference
    to the shared governor, which is [manager w] of the world. *)
Record ProcessThrottler : Type := mkProcessThrottler {
  process_count : Z;
  max_concurrent : Z
}.

(** [ProcessThrottler._calculate_max_concurrent]; [psutil.cpu_count()]
    answers an [int], or [None] when the count cannot be told, and
    [None // 2] is a [TypeError]. *)
Definition _calculate_max_concurrent (cpu_count : option Z) : outcome Z :=
  match cpu_count with
  | Some cpu_count => Returned (Z.max 1 (cpu_count / 2))
  | None => Raised TypeError
  end.

(** [ProcessThrottler.__init__] *)
Definition ProcessThrottler_init (cpu_count : option Z) : outcome ProcessThrottler :=
  match _calculate_max_concurrent cpu_count with
  | Returned n => Returned {| process_count := 0; max_concurrent := n |}
  | Raised e => Raised e
  | Blocked => Blocked
  end.

(** [ProcessThrottler.end_process] *)
Definition end_process (t : ProcessThrottler) : ProcessThrottler :=
  {| process_count := Z.max 0 (process_count t - 1);
     max_concurrent := max_concurrent t |}.

(** A task handed to the batch runner: something that can be called, or
    any other object. *)
Inductive task (W R : Type) : Type :=
| Callable (call : M W R)
| NotCallable.
Arguments Callable {W R} call.
Arguments NotCallable {W R}.

Definition callable {W R : Type} (t : task W R) : bool :=
  match t with Callable _ => true | NotCallable => false end.

(** The [count] multiples of [step] from the [first]-th on. *)
Definition multiples (step first count : nat) : list nat :=
  map (fun k => (k * step)%nat) (seq first count).

(** [range(0, stop, step)] as the list of its values: a zero step is
    refused, a negative step gives nothing when [stop >= 0], and a
    positive step gives the multiples of [step] below [stop], of which
    there are [stop] over [step], rounded up. *)
Definition range_from_zero (stop step : Z) : outcome (list nat) :=
  if (step =? 0)%Z then Raised ValueError
  else if (step <? 0)%Z then Returned []
  else Returned (multiples (Z.to_nat step) 0
                           (Z.to_nat ((stop + step - 1) / step))).

(** [tasks[i:i + batch_size]] for [i >= 0] and [batch_size > 0]. *)
Definition slice {A : Type} (l : list A) (i : nat) (batch_size : Z) : list A :=
  firstn (Z.to_nat batch_size) (skipn i l).

Section Limiter.

Context {W : Type} {RT : Runtime W}.

Local Open Scope py_scope.

(** [ProcessThrottler.can_start_process], with the states it leaves. *)
Definition can_start_process (t : ProcessThrottler) (w : W)
    : bool * (ProcessThrottler * W) :=
  ((process_count t <? max_concurrent t)%Z && negb (throttle_active (manager w)),
   (t, w)).

(** [ProcessThrottler.start_process] *)
Definition start_process (fuel : nat) (t : ProcessThrottler) (w : W)
    : outcome unit * (ProcessThrottler * W) :=
  match wait_for_cpu fuel None w with
  | (Returned _, w') =>
      (Returned tt,
       ({| process_count := process_count t + 1;
           max_concurrent := max_concurrent t |}, w'))
  | (Raised e, w') => (Raised e, (t, w'))
  | (Blocked, w') => (Blocked, (t, w'))
  end.

Context {R : Type}.

(** The inner loop, [for task in batch: ...] (lines 208 to 213). *)
Fixpoint execute_batch (batch : list (task W R)) (results : list R)
    : M W (list R) :=
  match batch with
  | [] => ret results
  | Callable call :: rest =>
      result <- call ;;
      let results := results ++ [result] in
      adaptive_sleep 0.2%float ;;;
      execute_batch rest results
  | NotCallable :: rest => execute_batch rest results
  end.

(** The outer loop, [for i in range(0, len(tasks), batch_size): ...]. *)
Fixpoint execute_batches (fuel : nat) (tasks : list (task W R)) (batch_size : Z)
    (indices : list nat) (results : list R) : M W (list R) :=
  match indices with
  | [] => ret results
  | i :: more =>
      let batch := slice tasks i batch_size in
      wait_for_cpu fuel None ;;;
      results <- execute_batch batch results ;;
      adaptive_sleep 1.0%float ;;;
      execute_batches fuel tasks batch_size more results
  end.

(** [ProcessThrottler.throttled_batch_execute] *)
Definition throttled_batch_execute (fuel : nat) (t : ProcessThrottler)
    (tasks : list (task W R)) (batch_size : option Z) : M W (list R) :=
  let batch_size :=
    match batch_size with None => max_concurrent t | Some b => b end in
  match range_from_zero (Z.of_nat (length tasks)) batch_size with
  | Returned indices => execute_batches fuel tasks batch_size indices []
  | Raised e => fun w => (Raised e, w)
  | Blocked => fun w => (Blocked, w)
  end.

(** The conditions under which a batch is run, for a set [I] of
    worlds: a sleep keeps the world in [I], and from a world of [I] a
    wait without a timeout gets through within the fuel and ends in
    [I]. *)
Definition steady (I : W -> Prop) (fuel : nat) : Prop :=
  (forall d w, I w -> I (time_sleep d w))
  /\ (forall w, I w ->
        exists w', wait_for_cpu fuel None w = (Returned true, w') /\ I w').

(** Called in a world of [I], the task returns and leaves a world of
    [I]; an object that cannot be called has nothing to do. *)
Definition task_returns (I : W -> Prop) (t : task W R) : Prop :=
  match t with
  | Callable call =>
      forall w, I w -> exists r w', call w = (Returned r, w') /\ I w'
  | NotCallable => True
  end.

(** Called in a world of [I], [call] raises [e]. *)
Definition call_raises (I : W -> Prop) (call : M W R) (e : exception) : Prop :=
  forall w, I w -> exists w', call w = (Raised e, w').

(** [r] is what a call of the task returned. *)
Definition produced_by (t : task W R) (r : R) : Prop :=
  match t with
  | Callable call => exists w w', call w = (Returned r, w')
  | NotCallable => False
  end.

(** The batch size in force: the argument, or [max_concurrent]. *)
Definition batch_size_in_force (t : ProcessThrottler) (batch_size : option Z) : Z :=
  match batch_size with None => max_concurrent t | Some b => b end.

End Limiter.

(** A caller's use of the limiter's counter. *)
Inductive limiter_call : Type :=
| Begin      (* start_process() *)
| End_.      (* end_process() *)

Section LimiterCalls.

Context {W : Type} {RT : Runtime W}.

(** A sequence of [start_process] and [end_process] calls by one
    thread, with the counter after each call. A [start_process] that
    stays blocked ends the sequence. *)
Fixpoint run_calls (fuel : nat) (calls : list limiter_call)
    (t : ProcessThrottler) (w : W) : list ProcessThrottler :=
  match calls with
  | [] => []
  | End_ :: rest =>
      let t' := end_process t in
      t' :: run_calls fuel rest t' w
  | Begin :: rest =>
      match start_process fuel t w with
      | (Returned _, (t', w')) => t' :: run_calls fuel rest t' w'
      | (_, (t', _)) => [t']
      end
  end.

End LimiterCalls.

(* ===================================================================== *)
(** ** A scripted world *)
(* ===================================================================== *)

(** A world to run the calling thread in: the shared governor, a clock,
    and the inputs the monitor thread has still to meet. While the
    caller sleeps the clock advances by the sleep and the monitor thread
    takes its next input; a monitor thread that has finished or died
    takes no more. Sleeps and log records are kept, oldest first. *)
Module Sim.

Record world : Type := mkWorld {
  mgr : CPUManager;
  clock : float;
  pending : list Monitor.input;
  slept : list float;
  logged : list log_record
}.

Definition monitor_turn (w : world) : CPUManager * list Monitor.input :=
  match pending w with
  | [] => (mgr w, [])
  | i :: rest =>
      let r := Monitor._monitor_cpu [i] (mgr w) in
      (Monitor.final r,
       match Monitor.exit r with
       | Monitor.Running => rest
       | _ => []
       end)
  end.

Definition sleep_in (seconds : float) (w : world) : world :=
  let '(m, rest) := monitor_turn w in
  {| mgr := m;
     clock := (clock w + seconds)%float;
     pending := rest;
     slept := slept w ++ [seconds];
     logged := logged w |}.

Definition log_in (r : log_record) (w : world) : world :=
  {| mgr := mgr w;
     clock := clock w;
     pending := pending w;
     slept := slept w;
     logged := logged w ++ [r] |}.

#[global] Instance runtime : Runtime world := {
  manager := mgr;
  time_time := clock;
  time_sleep := sleep_in;
  logger_info := log_in
}.

(** A governor with ceiling 80 and interval 1, monitoring, as the
    monitor thread left it after reading [usage]. *)
Definition governor_at (usage : float) : CPUManager :=
  fst (Monitor.iteration usage
         (start_monitoring (CPUManager_init 80%float 1%float))).

(** The world at time 0 with the governor at [usage] and [inputs]
    ahead of the monitor thread. *)
Definition world_at (usage : float) (inputs : list Monitor.input) : world :=
  {| mgr := governor_at usage;
     clock := 0%float;
     pending := inputs;
     slept := [];
     logged := [] |}.

(** Nothing ahead of the monitor thread and no throttling. *)
Definition calm (w : world) : Prop :=
  pending w = [] /\ throttle_active (mgr w) = false.

(** Nothing ahead of the monitor thread and throttling on: the
    reading stays above the ceiling for good. *)
Definition stuck (w : world) : Prop :=
  pending w = [] /\ throttle_active (mgr w) = true.

(** A task that returns [r] and leaves the world alone. *)
Definition returning {R : Type} (r : R) : task world R :=
  Callable (fun w => (Returned r, w)).

(** A task that raises [e]. *)
Definition raising {R : Type} (e : exception) : task world R :=
  Callable (fun w => (Raised e, w)).

End Sim.

(* ===================================================================== *)
(** ** Starting and stopping the governor, and the module's singleton *)
(* ===================================================================== *)

Module Lifecycle.

(** What starting and stopping do besides writing the shared state. *)
Inductive effect : Type :=
| ThreadStart                    (* threading.Thread(target=self._monitor_cpu, daemon=True).start() *)
| ThreadJoin (timeout : float)   (* self.monitor_thread.join(timeout=2) *)
| LogStarted (ceiling : float)   (* info: "CPU monitoring started (max: ...%)" *)
| LogStopped.                    (* info: "CPU monitoring stopped" *)

(** The governor with its [monitor_thread] field: [false] for [None],
    [true] once a thread object was stored. *)
Record governor : Type := mkGovernor {
  shared : CPUManager;
  monitor_thread : bool
}.

(** [CPUManager.__init__] *)
Definition init (max_cpu_percent check_interval : float) : governor :=
  {| shared := CPUManager_init max_cpu_percent check_interval;
     monitor_thread := false |}.

(** [CPUManager.start_monitoring] *)
Definition start_monitoring (g : governor) : governor * list effect :=
  if negb (monitoring (shared g)) then
    ({| shared := set_monitoring true (shared g); monitor_thread := true |},
     [ThreadStart; LogStarted (max_cpu_percent (shared g))])
  else (g, []).

(** [CPUManager.stop_monitoring] *)
Definition stop_monitoring (g : governor) : governor * list effect :=
  ({| shared := set_monitoring false (shared g);
      monitor_thread := monitor_thread g |},
   (if monitor_thread g then [ThreadJoin 2%float] else []) ++ [LogStopped]).

Definition is_thread_start (e : effect) : bool :=
  match e with ThreadStart => true | _ => false end.

(** [get_cpu_manager], on the module's global [_cpu_manager]: the
    governor returned, the global afterwards, and what was done. The
    default of [check_interval] is 1.0. *)
Definition get_cpu_manager (max_cpu : float) (_cpu_manager : option governor)
    : governor * option governor * list effect :=
  match _cpu_manager with
  | None =>
      let '(g, fx) := start_monitoring (init max_cpu 1.0%float) in
      (g, Some g, fx)
  | Some g => (g, Some g, [])
  end.

(** What happens to the module's global over time: a caller asks for
    the governor, or the monitor thread of the governor completes an
    iteration with the reading [x]. *)
Inductive module_event : Type :=
| GetCpuManager (max_cpu : float)
| MonitorIteration (x : float).

(** The governors handed out and the effects, in order. *)
Fixpoint run_module (events : list module_event) (_cpu_manager : option governor)
    : list governor * list effect :=
  match events with
  | [] => ([], [])
  | GetCpuManager max_cpu :: rest =>
      let '(g, global, fx) := get_cpu_manager max_cpu _cpu_manager in
      let '(gs, fxs) := run_module rest global in
      (g :: gs, fx ++ fxs)
  | MonitorIteration x :: rest =>
      let global :=
        match _cpu_manager with
        | Some g =>
            if monitoring (shared g) then
              Some {| shared := fst (Monitor.iteration x (shared g));
                      monitor_thread := monitor_thread g |}
            else Some g
        | None => None
        end in
      run_module rest global
  end.

End Lifecycle.





(** The task returns [r] in every world, and keeps the worlds of [I]. *)
Definition always_returns {W R : Type} (I : W -> Prop) (r : R) (t : task W R) : Prop :=
  match t with
  | Callable call => forall w, exists w', call w = (Returned r, w') /\ (I w -> I w')
  | NotCallable => False
  end.

(* ===================================================================== *)
(** ** A caller: [PlatformContentAdapter.batch_process_content] *)
(* ===================================================================== *)

Section BatchProcessContent.

Context {W : Type} {RT : Runtime W}.
Context {ContentPiece Adapted : Type}.

(** [self.adapt_content], the method the loop calls on each piece. *)
Variable adapt_content : ContentPiece -> M W Adapted.

(** [print(f"Processed batch {i//batch_size + 1}/{(len(content_list) +
    batch_size - 1)//batch_size}")], with the two numbers printed. *)
Variable print_processed : Z -> Z -> W -> W.

Local Open Scope py_scope.

(** [a] is what [adapt_content] returned on [c]. *)
Definition adapted_from (c : ContentPiece) (a : Adapted) : Prop :=
  exists w w', adapt_content c w = (Returned a, w').

(** The inner loop, [for content in batch: ...]. *)
Fixpoint adapt_batch (batch : list ContentPiece) (results : list Adapted)
    : M W (list Adapted) :=
  match batch with
  | [] => ret results
  | content :: rest =>
      adapted <- adapt_content content ;;
      let results := results ++ [adapted] in
      adaptive_sleep 1.0%float ;;;
      adapt_batch rest results
  end.

(** The outer loop, [for i in range(0, len(content_list), batch_size)]. *)
Fixpoint process_batches (fuel : nat) (content_list : list ContentPiece)
    (batch_size : Z) (indices : list nat) (results : list Adapted)
    : M W (list Adapted) :=
  match indices with
  | [] => ret results
  | i :: more =>
      let batch := slice content_list i batch_size in
      wait_for_cpu fuel None ;;;
      results <- adapt_batch batch results ;;
      (fun w => (Returned tt,
                 print_processed
                   (Z.of_nat i / batch_size + 1)
                   ((Z.of_nat (length content_list) + batch_size - 1) / batch_size)
                   w)) ;;;
      process_batches fuel content_list batch_size more results
  end.

(** [batch_process_content], with [self.throttler] as [t]. *)
Definition batch_process_content (fuel : nat) (t : ProcessThrottler)
    (content_list : list ContentPiece) : M W (list Adapted) :=
  let batch_size := max_concurrent t in
  match range_from_zero (Z.of_nat (length content_list)) batch_size with
  | Returned indices => process_batches fuel content_list batch_size indices []
  | Raised e => fun w => (Raised e, w)
  | Blocked => fun w => (Blocked, w)
  end.

End BatchProcessContent.

(* ===================================================================== *)
(** * Properties *)
(* ===================================================================== *)

(** ** Float comparisons *)

Lemma SFcompare_Lt_flip (a b : spec_float) :
  SFcompare a b = Some Lt -> SFcompare b a = Some Gt.
Proof.
  destruct a as [sa|sa| |sa ma ea], b as [sb|sb| |sb mb eb]; simpl;
    try discriminate; try (destruct sa; discriminate);
    try (destruct sb; discriminate);
    try (destruct sa, sb; (discriminate || reflexivity)).
  assert (Hm : Pos.compare_cont Eq mb ma = CompOpp (Pos.compare_cont Eq ma mb))
    by (symmetry; apply (Pos.compare_cont_antisym ma mb Eq)).
  destruct sa, sb; try discriminate; try reflexivity;
    rewrite (Z.compare_antisym ea eb), Hm;
    destruct (ea ?= eb)%Z; simpl; try discriminate; try reflexivity;
    destruct (Pos.compare_cont Eq ma mb); simpl;
    (discriminate || reflexivity).
Qed.

(** Strictly below excludes at-or-above. *)
Lemma lt_not_ge (x y : float) : PyFloat.lt x y = true -> PyFloat.ge x y = false.
Proof.
  unfold PyFloat.lt, PyFloat.ge. rewrite ltb_spec, leb_spec. unfold SFltb, SFleb.
  destruct (SFcompare (Prim2SF x) (Prim2SF y)) as [[ | | ]|] eqn:E;
    try discriminate.
  intros _. now rewrite (SFcompare_Lt_flip _ _ E).
Qed.

(** ** The sampling loop *)

Lemma iteration_fields (x : float) (m : CPUManager) :
  let m' := fst (Monitor.iteration x m) in
  current_cpu_usage m' = x
  /\ max_cpu_percent m' = max_cpu_percent m
  /\ check_interval m' = check_interval m
  /\ monitoring m' = monitoring m
  /\ throttle_active m' = PyFloat.ge x (max_cpu_percent m).
Proof.
  unfold Monitor.iteration; simpl.
  destruct (PyFloat.ge x (max_cpu_percent m)); simpl; auto.
Qed.

Example monitor_cpu_scenario :
  let r := Monitor._monitor_cpu
             [Monitor.CpuPercent 50; Monitor.CpuPercent 85;
              Monitor.CpuPercent 85; Monitor.CpuPercent 60]
             (start_monitoring (CPUManager_init 80 1)) in
  map (fun s => throttle_active (snd s)) (Monitor.stored r)
    = [false; true; true; false]
  /\ Monitor.exit r = Monitor.Running
  /\ Monitor.effects r
     = [Monitor.Sleep 1;
        Monitor.Log (CpuUsageHigh 85); Monitor.Sleep 1;
        Monitor.Log (CpuUsageHigh 85); Monitor.Sleep 1;
        Monitor.Log (CpuUsageNormal 60); Monitor.Sleep 1].
Proof. repeat split; reflexivity. Qed.

(** Whatever the loop has stored, it stored with the flag in step. *)
Lemma monitor_cpu_stored_in_step (inputs : list Monitor.input) (m : CPUManager) :
  Forall (fun s : float * CPUManager =>
            let (x, m') := s in
            current_cpu_usage m' = x
            /\ max_cpu_percent m' = max_cpu_percent m
            /\ throttle_invariant m'
            /\ (PyFloat.ge x (max_cpu_percent m) = true -> throttle_active m' = true)
            /\ (PyFloat.lt x (max_cpu_percent m) = true -> throttle_active m' = false))
         (Monitor.stored (Monitor._monitor_cpu inputs m)).
Proof.
  revert m. induction inputs as [|i rest IH]; intros m; simpl.
  - destruct (monitoring m); simpl; constructor.
  - destruct (monitoring m) eqn:Hmon; simpl; [|constructor].
    destruct i as [x|e|]; simpl.
    + destruct (Monitor.iteration x m) as [m' fx] eqn:Hit. simpl.
      pose proof (iteration_fields x m) as F. rewrite Hit in F. simpl in F.
      destruct F as (Hc & Hmax & _ & _ & Hthr).
      constructor.
      * unfold throttle_invariant. rewrite Hc, Hmax, Hthr.
        repeat split; auto using lt_not_ge.
      * specialize (IH m'). rewrite Hmax in IH. exact IH.
    + constructor.
    + apply (IH (set_monitoring false m)).
Qed.

Lemma last_cons_default {A : Type} (l : list A) (a d d' : A) :
  last (a :: l) d = last (a :: l) d'.
Proof.
  revert a. induction l as [|b l IH]; intros a; [reflexivity|].
  change (last (b :: l) d = last (b :: l) d'). apply IH.
Qed.

Lemma monitor_cpu_readings_only (inputs : list Monitor.input) (m : CPUManager) :
  monitoring m = true ->
  forallb Monitor.is_reading inputs = true ->
  let r := Monitor._monitor_cpu inputs m in
  Monitor.exit r = Monitor.Running
  /\ monitoring (Monitor.final r) = true
  /\ map fst (Monitor.stored r) = Monitor.readings inputs
  /\ current_cpu_usage (Monitor.final r)
     = last (Monitor.readings inputs) (current_cpu_usage m).
Proof.
  revert m. induction inputs as [|i rest IH]; intros m Hmon Hall; simpl.
  - rewrite Hmon; simpl. auto.
  - rewrite Hmon; simpl.
    destruct i as [x|e|]; simpl in Hall; try discriminate.
    destruct (Monitor.iteration x m) as [m' fx] eqn:Hit. simpl.
    pose proof (iteration_fields x m) as F. rewrite Hit in F. simpl in F.
    destruct F as (Hc & _ & _ & Hm' & _).
    rewrite Hmon in Hm'.
    destruct (IH m' Hm' Hall) as (He & Hf & Hs & Hl).
    repeat split; auto.
    + simpl. now rewrite Hs.
    + rewrite Hl, Hc.
      change (Monitor.readings (Monitor.CpuPercent x :: rest))
        with (x :: Monitor.readings rest).
      destruct (Monitor.readings rest) as [|y ys]; [reflexivity|].
      change (last (y :: ys) x = last (y :: ys) (current_cpu_usage m)).
      apply last_cons_default.
Qed.

Lemma monitor_cpu_app_raises (before after : list Monitor.input)
    (e : exception) (m : CPUManager) :
  monitoring m = true ->
  forallb Monitor.is_reading before = true ->
  let r := Monitor._monitor_cpu (before ++ Monitor.CpuPercentRaises e :: after) m in
  let r0 := Monitor._monitor_cpu before m in
  Monitor.exit r = Monitor.Uncaught e
  /\ Monitor.final r = Monitor.final r0
  /\ Monitor.stored r = Monitor.stored r0
  /\ Monitor.effects r = Monitor.effects r0.
Proof.
  revert m. induction before as [|i rest IH]; intros m Hmon Hall; simpl.
  - rewrite Hmon; simpl. auto.
  - rewrite Hmon; simpl.
    destruct i as [x|e'|]; simpl in Hall; try discriminate.
    destruct (Monitor.iteration x m) as [m' fx] eqn:Hit. simpl.
    pose proof (iteration_fields x m) as F. rewrite Hit in F. simpl in F.
    destruct F as (_ & _ & _ & Hm' & _). rewrite Hmon in Hm'.
    destruct (IH m' Hm' Hall) as (He & Hf & Hs & Hx).
    repeat split; auto; congruence.
Qed.

Lemma monitor_cpu_app_reading (before after : list Monitor.input)
    (x : float) (m : CPUManager) :
  monitoring m = true ->
  forallb Monitor.is_reading before = true ->
  let r0 := Monitor._monitor_cpu before m in
  let m' := fst (Monitor.iteration x (Monitor.final r0)) in
  let r1 := Monitor._monitor_cpu after m' in
  let r := Monitor._monitor_cpu (before ++ Monitor.CpuPercent x :: after) m in
  Monitor.stored r = Monitor.stored r0 ++ (x, m') :: Monitor.stored r1
  /\ Monitor.final r = Monitor.final r1
  /\ Monitor.exit r = Monitor.exit r1
  /\ length (Monitor.stored r0) = length before
  /\ max_cpu_percent (Monitor.final r0) = max_cpu_percent m.
Proof.
  revert m. induction before as [|i rest IH]; intros m Hmon Hall; simpl.
  - rewrite Hmon; simpl.
    destruct (Monitor.iteration x m) as [m' fx]. simpl. auto.
  - rewrite Hmon; simpl.
    destruct i as [y|e'|]; simpl in Hall; try discriminate.
    destruct (Monitor.iteration y m) as [m1 fx] eqn:Hit. simpl.
    pose proof (iteration_fields y m) as F. rewrite Hit in F. simpl in F.
    destruct F as (_ & Hmx & _ & Hm1 & _). rewrite Hmon in Hm1.
    destruct (IH m1 Hm1 Hall) as (Hs & Hf & He & Hl & Hmax).
    rewrite Hs, Hf, He, Hl, Hmax, Hmx. auto.
Qed.

(** C1. Every reading that [psutil.cpu_percent] delivers to the running
    loop is stored, and right after that iteration the governor holds
    the reading in [current_cpu_usage], has its ceiling untouched and
    has [throttle_active] equal to
    [current_cpu_usage >= max_cpu_percent]: true for a reading at or
    above the ceiling, false for one strictly below it. The readings
    delivered before it were stored before it, in their order, and
    whatever the loop stores afterwards is stored with the flag in
    step as well. *)
Theorem monitor_cpu_throttle_matches_sample
    (before after : list Monitor.input) (x : float) (m : CPUManager) :
  monitoring m = true ->
  forallb Monitor.is_reading before = true ->
  let r := Monitor._monitor_cpu (before ++ Monitor.CpuPercent x :: after) m in
  let m' := Monitor.final (Monitor._monitor_cpu (before ++ [Monitor.CpuPercent x]) m) in
  nth_error (Monitor.stored r) (length before) = Some (x, m')
  /\ map fst (firstn (length before) (Monitor.stored r)) = Monitor.readings before
  /\ current_cpu_usage m' = x
  /\ max_cpu_percent m' = max_cpu_percent m
  /\ throttle_active m' = PyFloat.ge (current_cpu_usage m') (max_cpu_percent m')
  /\ (PyFloat.ge x (max_cpu_percent m) = true -> throttle_active m' = true)
  /\ (PyFloat.lt x (max_cpu_percent m) = true -> throttle_active m' = false)
  /\ Forall (fun s : float * CPUManager =>
               let (y, my) := s in
               current_cpu_usage my = y
               /\ max_cpu_percent my = max_cpu_percent m
               /\ throttle_invariant my
               /\ (PyFloat.ge y (max_cpu_percent m) = true -> throttle_active my = true)
               /\ (PyFloat.lt y (max_cpu_percent m) = true -> throttle_active my = false))
            (Monitor.stored r).
Proof.
  intros Hmon Hall r m'.
  destruct (monitor_cpu_app_reading before after x m Hmon Hall)
    as (Hs & _ & _ & Hl & Hmax).
  destruct (monitor_cpu_app_reading before [] x m Hmon Hall)
    as (_ & Hf & _ & _ & _).
  destruct (monitor_cpu_readings_only before m Hmon Hall) as (_ & _ & Hr & _).
  set (r0 := Monitor._monitor_cpu before m) in *.
  set (m1 := fst (Monitor.iteration x (Monitor.final r0))) in *.
  assert (Hm' : m' = m1).
  { subst m'. rewrite Hf. simpl. destruct (monitoring m1); reflexivity. }
  pose proof (iteration_fields x (Monitor.final r0)) as (Hc & Hmx & _ & _ & Hthr).
  fold m1 in Hc, Hmx, Hthr. rewrite Hmax in Hmx, Hthr.
  subst r. rewrite Hm'. split; [|split].
  - rewrite Hs, nth_error_app2 by lia. rewrite Hl, Nat.sub_diag. reflexivity.
  - rewrite Hs, <- Hl, firstn_app, Nat.sub_diag, firstn_all. simpl.
    rewrite app_nil_r. exact Hr.
  - rewrite Hc, Hmx, Hthr. repeat split; auto using lt_not_ge.
    apply monitor_cpu_stored_in_step.
Qed.

Lemma monitor_cpu_throttle_matches_sample_witness :
  let m := start_monitoring (CPUManager_init 80 1) in
  let inputs := [Monitor.CpuPercent 50; Monitor.CpuPercent 85; Monitor.CpuPercent 60] in
  let r := Monitor._monitor_cpu inputs m in
  let m' := Monitor.final
              (Monitor._monitor_cpu [Monitor.CpuPercent 50; Monitor.CpuPercent 85] m) in
  nth_error (Monitor.stored r) 1 = Some (85%float, m')
  /\ current_cpu_usage m' = 85%float
  /\ throttle_active m' = true.
Proof.
  intros m inputs r m'.
  destruct (monitor_cpu_throttle_matches_sample
              [Monitor.CpuPercent 50] [Monitor.CpuPercent 60] 85%float m
              eq_refl eq_refl)
    as (Hnth & _ & Hc & _ & _ & Hhigh & _).
  split; [exact Hnth|]. split; [exact Hc|].
  apply Hhigh. reflexivity.
Defined.

(** ** The wait loop *)

Section WaitFacts.

Context {W : Type} {RT : Runtime W}.

Lemma wait_loop_clear fuel timeout start (w : W) :
  throttle_active (manager w) = false ->
  wait_loop fuel timeout start w = (Returned true, w).
Proof. intros H. destruct fuel; simpl; now rewrite H. Qed.

Lemma wait_loop_timed_out fuel timeout start (w : W) :
  throttle_active (manager w) = true ->
  timed_out timeout start w = true ->
  wait_loop fuel timeout start w = (Returned false, w).
Proof. intros H T. destruct fuel; simpl; now rewrite H, T. Qed.

Lemma wait_loop_pass fuel timeout start (w : W) :
  throttle_active (manager w) = true ->
  timed_out timeout start w = false ->
  wait_loop (S fuel) timeout start w = wait_loop fuel timeout start (wait_pass w).
Proof. intros H T. simpl. now rewrite H, T. Qed.

Lemma wait_loop_out_of_fuel timeout start (w : W) :
  throttle_active (manager w) = true ->
  timed_out timeout start w = false ->
  wait_loop 0 timeout start w = (Blocked, w).
Proof. intros H T. simpl. now rewrite H, T. Qed.

(** The wait loop never raises. *)
Lemma wait_loop_never_raises fuel timeout start (w : W) e :
  fst (wait_loop fuel timeout start w) <> Raised e.
Proof.
  revert w. induction fuel as [|fuel IH]; intros w; simpl;
    destruct (throttle_active (manager w));
    try destruct (timed_out timeout start w); simpl;
    try discriminate. apply IH.
Qed.

(** A falsy timeout never times out. *)
Lemma timed_out_falsy t start (w : W) :
  PyFloat.truthy t = false -> timed_out (Some t) start w = false.
Proof. intros H. unfold timed_out. now rewrite H. Qed.

Lemma wait_loop_falsy fuel t start (w : W) :
  PyFloat.truthy t = false ->
  wait_loop fuel (Some t) start w = wait_loop fuel None start w.
Proof.
  intros H. revert w. induction fuel as [|fuel IH]; intros w;
    cbn [wait_loop]; rewrite (timed_out_falsy t start w H);
    destruct (throttle_active (manager w)); cbn [timed_out]; auto.
Qed.

Lemma wait_loop_no_deadline_not_false fuel start (w : W) :
  fst (wait_loop fuel None start w) <> Returned false.
Proof.
  revert w. induction fuel as [|fuel IH]; intros w; simpl;
    destruct (throttle_active (manager w)); simpl; try discriminate.
  apply IH.
Qed.

Lemma held_back_pass timeout start k (w : W) :
  held_back timeout start (S k) w -> held_back timeout start k (wait_pass w).
Proof. intros H j Hj. apply (H (S j)). lia. Qed.

Lemma wait_loop_runs timeout start k : forall fuel (w : W),
  held_back timeout start k w ->
  (k <= fuel)%nat ->
  wait_loop fuel timeout start w
    = wait_loop (fuel - k) timeout start (after_passes k w).
Proof.
  induction k as [|k IH]; intros fuel w Hheld Hk; simpl.
  - now rewrite Nat.sub_0_r.
  - destruct fuel as [|fuel]; [lia|].
    destruct (Hheld 0%nat) as [Hth Hto]; [lia|]. simpl in Hth, Hto.
    rewrite (wait_loop_pass _ _ _ _ Hth Hto).
    rewrite (IH fuel (wait_pass w)); [reflexivity| |lia].
    now apply held_back_pass.
Qed.

(** Throttling cleared at the [k]-th loop test: the wait returns [True]. *)
Lemma wait_for_cpu_returns_true timeout k fuel (w : W) :
  held_back timeout (time_time w) k w ->
  throttle_active (manager (after_passes k w)) = false ->
  (k <= fuel)%nat ->
  wait_for_cpu fuel timeout w = (Returned true, after_passes k w).
Proof.
  intros Hheld Hclear Hk. unfold wait_for_cpu.
  rewrite (wait_loop_runs _ _ k fuel w Hheld Hk).
  now apply wait_loop_clear.
Qed.

(** Still throttled with the deadline passed at the [k]-th loop test:
    the wait returns [False]. *)
Lemma wait_for_cpu_returns_false timeout k fuel (w : W) :
  held_back timeout (time_time w) k w ->
  throttle_active (manager (after_passes k w)) = true ->
  timed_out timeout (time_time w) (after_passes k w) = true ->
  (k <= fuel)%nat ->
  wait_for_cpu fuel timeout w = (Returned false, after_passes k w).
Proof.
  intros Hheld Hth Hto Hk. unfold wait_for_cpu.
  rewrite (wait_loop_runs _ _ k fuel w Hheld Hk).
  now apply wait_loop_timed_out.
Qed.

(** Held back at every loop test the fuel allows: still blocked. *)
Lemma wait_for_cpu_blocked timeout fuel (w : W) :
  held_back timeout (time_time w) (S fuel) w ->
  wait_for_cpu fuel timeout w = (Blocked, after_passes fuel w).
Proof.
  intros Hheld. unfold wait_for_cpu.
  rewrite (wait_loop_runs _ _ fuel fuel w); [|intros j Hj; apply Hheld; lia|lia].
  rewrite Nat.sub_diag.
  destruct (Hheld fuel) as [Hth Hto]; [lia|].
  now apply wait_loop_out_of_fuel.
Qed.

End WaitFacts.

Lemma throttled_execute_raises_from_func {W : Type} {RT : Runtime W} {R : Type}
    (fuel : nat) (func : M W R) (w : W) (e : exception) :
  fst (throttled_execute fuel func w) = Raised e ->
  exists w1, fst (func w1) = Raised e.
Proof.
  unfold throttled_execute, bind, wait_for_cpu.
  destruct (wait_loop fuel None (time_time w) w) as [[b| e0| ] w1] eqn:Hw; simpl.
  - destruct (func w1) as [[r| e1| ] w2] eqn:Hf; simpl; try discriminate.
    intros H. exists w1. now rewrite Hf.
  - exfalso. apply (wait_loop_never_raises fuel None (time_time w) w e0).
    now rewrite Hw.
  - discriminate.
Qed.

(** ** The scripted world *)

Lemma stuck_pass (w : Sim.world) : Sim.stuck w -> Sim.stuck (wait_pass w).
Proof.
  intros [Hp Ht]. unfold wait_pass; simpl.
  unfold Sim.sleep_in, Sim.monitor_turn, Sim.log_in; simpl.
  rewrite Hp; simpl. split; auto.
Qed.

Lemma stuck_after_passes (k : nat) : forall w : Sim.world,
  Sim.stuck w -> Sim.stuck (after_passes k w).
Proof.
  induction k as [|k IH]; intros w H; simpl; [exact H|].
  apply IH. now apply stuck_pass.
Qed.

Lemma calm_sleep (d : float) (w : Sim.world) : Sim.calm w -> Sim.calm (time_sleep d w).
Proof.
  intros [Hp Ht]. simpl. unfold Sim.sleep_in, Sim.monitor_turn.
  rewrite Hp; simpl. split; auto.
Qed.

Lemma calm_wait (fuel : nat) (w : Sim.world) :
  Sim.calm w -> wait_for_cpu fuel None w = (Returned true, w).
Proof. intros [_ Ht]. unfold wait_for_cpu. now apply wait_loop_clear. Qed.

(** P3 of the specification: the reading stays at 95 against a ceiling
    of 80, and a wait of at most half a second gives up after one sleep
    of one second. *)
Example wait_for_cpu_half_second :
  let r := wait_for_cpu 5 (Some 0.5%float) (Sim.world_at 95 []) in
  fst r = Returned false
  /\ Sim.slept (snd r) = [1.0%float]
  /\ Sim.clock (snd r) = 1.0%float.
Proof. repeat split; reflexivity. Qed.

(** The scenario of the specification: readings 85, 85, 60 against a
    ceiling of 80, a wait of at most five seconds started right after
    the first 85. *)
Example wait_for_cpu_scenario :
  let r := wait_for_cpu 5 (Some 5%float)
             (Sim.world_at 85 [Monitor.CpuPercent 85; Monitor.CpuPercent 60]) in
  fst r = Returned true
  /\ Sim.slept (snd r) = [0.5%float; 0.5%float]
  /\ current_cpu_usage (Sim.mgr (snd r)) = 60%float.
Proof. repeat split; reflexivity. Qed.

(** Readings 105, 95, 85 and then 60 against a ceiling of 80: the
    sleeps are 2, 1 and a half second. *)
Example wait_for_cpu_backoff_scenario :
  let r := wait_for_cpu 5 None
             (Sim.world_at 105 [Monitor.CpuPercent 95; Monitor.CpuPercent 85;
                                Monitor.CpuPercent 60]) in
  fst r = Returned true
  /\ Sim.slept (snd r) = [2.0%float; 1.0%float; 0.5%float].
Proof. repeat split; reflexivity. Qed.

(** With [timeout = 0] in the same world: three passes, three seconds
    on the clock, and the wait has not given up. *)
Example wait_for_cpu_zero_timeout_three_passes :
  let r := wait_for_cpu 3 (Some 0%float) (Sim.world_at 95 []) in
  fst r = Blocked
  /\ Sim.slept (snd r) = [1.0%float; 1.0%float; 1.0%float]
  /\ Sim.clock (snd r) = 3.0%float.
Proof. repeat split; reflexivity. Qed.

(** ** The claims on the governor *)

(** C2 (the code at the input where it departs from the claim). The
    reading stays at 95 against a ceiling of 80. A wait with
    [timeout = 0] is still blocked after any number of passes although
    its deadline passed at once, where a wait with [timeout = 0.5]
    returns [False] after its first sleep. *)
Theorem wait_for_cpu_zero_timeout_never_expires (fuel : nat) :
  fst (wait_for_cpu fuel (Some 0%float) (Sim.world_at 95 [])) = Blocked
  /\ fst (wait_for_cpu (S fuel) (Some 0.5%float) (Sim.world_at 95 [])) = Returned false.
Proof.
  assert (Hstuck : Sim.stuck (Sim.world_at 95 [])) by (split; reflexivity).
  split.
  - rewrite (wait_for_cpu_blocked (Some 0%float) fuel (Sim.world_at 95 [])); auto.
    intros j _. split.
    + apply (stuck_after_passes j _ Hstuck).
    + now apply timed_out_falsy.
  - rewrite (wait_for_cpu_returns_false (Some 0.5%float) 1 (S fuel) (Sim.world_at 95 []));
      try reflexivity; try lia.
    intros j Hj. assert (j = 0)%nat as -> by lia. split; reflexivity.
Qed.

(** C3 (the claim as stated fails). Readings 50, then an error of the
    sampling primitive, then 90, against a ceiling of 80: the loop is
    left by the uncaught error, the reading 90 is never stored, nothing
    is logged for the error, and the flag stays off. *)
Lemma monitor_cpu_dies_on_sampling_error :
  let inputs := [Monitor.CpuPercent 50; Monitor.CpuPercentRaises PsutilError;
                 Monitor.CpuPercent 90] in
  let r := Monitor._monitor_cpu inputs (start_monitoring (CPUManager_init 80 1)) in
  Monitor.exit r = Monitor.Uncaught PsutilError
  /\ Monitor.exit r <> Monitor.Running
  /\ Monitor.readings inputs = [50%float; 90%float]
  /\ map fst (Monitor.stored r) = [50%float]
  /\ Monitor.effects r = [Monitor.Sleep 1]
  /\ throttle_active (Monitor.final r) = false.
Proof. repeat split; try reflexivity. discriminate. Qed.

(** C3 (amended). When the sampling primitive raises in an iteration of
    the sampling loop, the exception leaves the loop and ends the
    monitor thread: the inputs after it are never read. The governor
    keeps the state of the last completed iteration, so
    [current_cpu_usage] is the last reading before the error, and
    nothing is logged or stored for the failed iteration. The error
    does not reach the callers: [wait_for_cpu] never raises, and
    [throttled_execute] raises only what its [func] raised. *)
Theorem monitor_cpu_sampling_error_ends_loop
    (before after : list Monitor.input) (e : exception) (m : CPUManager) :
  monitoring m = true ->
  forallb Monitor.is_reading before = true ->
  let r := Monitor._monitor_cpu (before ++ Monitor.CpuPercentRaises e :: after) m in
  let r0 := Monitor._monitor_cpu before m in
  Monitor.exit r = Monitor.Uncaught e
  /\ Monitor.final r = Monitor.final r0
  /\ Monitor.stored r = Monitor.stored r0
  /\ Monitor.effects r = Monitor.effects r0
  /\ map fst (Monitor.stored r) = Monitor.readings before
  /\ current_cpu_usage (Monitor.final r)
     = last (Monitor.readings before) (current_cpu_usage m)
  /\ (forall (W : Type) (RT : Runtime W) fuel timeout (w : W) e',
        fst (wait_for_cpu fuel timeout w) <> Raised e')
  /\ (forall (W : Type) (RT : Runtime W) (R : Type) fuel (func : M W R) (w : W) e',
        fst (throttled_execute fuel func w) = Raised e' ->
        exists w1, fst (func w1) = Raised e').
Proof.
  intros Hmon Hall r r0.
  destruct (monitor_cpu_app_raises before after e m Hmon Hall) as (He & Hf & Hs & Hx).
  destruct (monitor_cpu_readings_only before m Hmon Hall) as (_ & _ & Hr & Hl).
  subst r r0. repeat split; auto.
  - now rewrite Hs.
  - now rewrite Hf.
  - intros W RT fuel timeout w e'. apply wait_loop_never_raises.
  - intros W RT R fuel func w e'. apply throttled_execute_raises_from_func.
Qed.

Lemma monitor_cpu_sampling_error_ends_loop_witness :
  let m := start_monitoring (CPUManager_init 80 1) in
  let r := Monitor._monitor_cpu
             ([Monitor.CpuPercent 50; Monitor.CpuPercent 85]
                ++ Monitor.CpuPercentRaises PsutilError :: [Monitor.CpuPercent 60]) m in
  Monitor.exit r = Monitor.Uncaught PsutilError
  /\ current_cpu_usage (Monitor.final r) = 85%float.
Proof.
  intros m r.
  destruct (monitor_cpu_sampling_error_ends_loop
              [Monitor.CpuPercent 50; Monitor.CpuPercent 85] [Monitor.CpuPercent 60]
              PsutilError m eq_refl eq_refl)
    as (He & _ & _ & _ & _ & Hl & _).
  split; [exact He | exact Hl].
Defined.

(** C4. A pass of the wait loop taken while throttled (and not timed
    out) logs and then sleeps the backoff time computed from
    [excess = current_cpu_usage - max_cpu_percent]: 2.0 seconds when
    [excess > 20], 1.0 second when [excess > 10] and not [excess > 20],
    0.5 second otherwise; so 2.0, 1.0 and 0.5 for an excess of 25, 15
    and 5. *)
Theorem wait_for_cpu_backoff_sleep {W : Type} {RT : Runtime W}
    (fuel : nat) (timeout : option float) (start_time : float) (w : W) :
  throttle_active (manager w) = true ->
  timed_out timeout start_time w = false ->
  let m := manager w in
  let sleep_time := backoff_sleep_time m in
  wait_loop (S fuel) timeout start_time w
    = wait_loop fuel timeout start_time
        (time_sleep sleep_time
           (logger_info (WaitingForCpu (max_cpu_percent m) (current_cpu_usage m)) w))
  /\ (PyFloat.gt (excess m) 20 = true -> sleep_time = 2.0%float)
  /\ (PyFloat.gt (excess m) 20 = false -> PyFloat.gt (excess m) 10 = true ->
      sleep_time = 1.0%float)
  /\ (PyFloat.gt (excess m) 20 = false -> PyFloat.gt (excess m) 10 = false ->
      sleep_time = 0.5%float)
  /\ (excess m = 25%float -> sleep_time = 2.0%float)
  /\ (excess m = 15%float -> sleep_time = 1.0%float)
  /\ (excess m = 5%float -> sleep_time = 0.5%float).
Proof.
  intros Hth Hto m sleep_time. subst sleep_time. unfold backoff_sleep_time.
  split; [exact (wait_loop_pass fuel timeout start_time w Hth Hto)|].
  repeat split.
  - intros H. now rewrite H.
  - intros H1 H2. now rewrite H1, H2.
  - intros H1 H2. now rewrite H1, H2.
  - intros H. now rewrite H.
  - intros H. now rewrite H.
  - intros H. now rewrite H.
Qed.

Lemma wait_for_cpu_backoff_sleep_witness :
  backoff_sleep_time (manager (Sim.world_at 105 [])) = 2.0%float
  /\ backoff_sleep_time (manager (Sim.world_at 95 [])) = 1.0%float
  /\ backoff_sleep_time (manager (Sim.world_at 85 [])) = 0.5%float
  /\ Sim.slept (snd (wait_loop 1 None 0%float (Sim.world_at 105 []))) = [2.0%float].
Proof.
  destruct (wait_for_cpu_backoff_sleep (RT := Sim.runtime) 0 None 0%float (Sim.world_at 105 [])
              ltac:(reflexivity) ltac:(reflexivity))
    as (Hpass & _ & _ & _ & H25 & _ & _).
  destruct (wait_for_cpu_backoff_sleep (RT := Sim.runtime) 0 None 0%float (Sim.world_at 95 [])
              ltac:(reflexivity) ltac:(reflexivity))
    as (_ & _ & _ & _ & _ & H15 & _).
  destruct (wait_for_cpu_backoff_sleep (RT := Sim.runtime) 0 None 0%float (Sim.world_at 85 [])
              ltac:(reflexivity) ltac:(reflexivity))
    as (_ & _ & _ & _ & _ & _ & H5).
  split; [|split; [|split]].
  - apply H25. reflexivity.
  - apply H15. reflexivity.
  - apply H5. reflexivity.
  - rewrite Hpass. reflexivity.
Defined.

(** C9. A falsy timeout (0, or a negative zero) is no timeout: the call
    does what the call without a timeout does, it never returns
    [False], and while [throttle_active] stays true it is still blocked
    whatever the number of passes. *)
Theorem wait_for_cpu_falsy_timeout_never_expires {W : Type} {RT : Runtime W}
    (t : float) (fuel : nat) (w : W) :
  PyFloat.truthy t = false ->
  wait_for_cpu fuel (Some t) w = wait_for_cpu fuel None w
  /\ fst (wait_for_cpu fuel (Some t) w) <> Returned false
  /\ ((forall j, (j <= fuel)%nat ->
         throttle_active (manager (after_passes j w)) = true) ->
      wait_for_cpu fuel (Some t) w = (Blocked, after_passes fuel w)).
Proof.
  intros Hfalsy.
  assert (Heq : wait_for_cpu fuel (Some t) w = wait_for_cpu fuel None w)
    by (unfold wait_for_cpu; now apply wait_loop_falsy).
  split; [exact Heq|]. split.
  - rewrite Heq. apply wait_loop_no_deadline_not_false.
  - intros Hth. apply wait_for_cpu_blocked. intros j Hj. split.
    + apply Hth. lia.
    + now apply timed_out_falsy.
Qed.

Lemma wait_for_cpu_falsy_timeout_never_expires_witness :
  PyFloat.truthy 0%float = false
  /\ PyFloat.truthy (-0)%float = false
  /\ wait_for_cpu 2 (Some 0%float) (Sim.world_at 95 [])
     = wait_for_cpu 2 None (Sim.world_at 95 [])
  /\ fst (wait_for_cpu 2 (Some 0%float) (Sim.world_at 95 [])) <> Returned false
  /\ fst (wait_for_cpu 2 (Some 0%float) (Sim.world_at 95 [])) = Blocked.
Proof.
  destruct (wait_for_cpu_falsy_timeout_never_expires (RT := Sim.runtime)
              0%float 2 (Sim.world_at 95 []) ltac:(reflexivity)) as (Heq & Hnf & Hbl).
  split; [reflexivity|]. split; [reflexivity|].
  split; [exact Heq|]. split; [exact Hnf|].
  rewrite Hbl; [reflexivity|].
  intros j Hj.
  destruct j as [|[|[|j]]]; try reflexivity. lia.
Defined.

(** ** The claims on the limiter *)

Section LimiterFacts.

Context {W : Type} {RT : Runtime W}.

Lemma start_process_fields fuel (t : ProcessThrottler) (w : W) :
  let t' := fst (snd (start_process fuel t w)) in
  max_concurrent t' = max_concurrent t
  /\ (process_count t' = process_count t
      \/ process_count t' = (process_count t + 1)%Z).
Proof.
  unfold start_process.
  destruct (wait_for_cpu fuel None w) as [[b|e|] w']; simpl; auto.
Qed.

Lemma run_calls_max_concurrent fuel calls : forall (t : ProcessThrottler) (w : W),
  Forall (fun t' => max_concurrent t' = max_concurrent t) (run_calls fuel calls t w).
Proof.
  induction calls as [|c rest IH]; intros t w; simpl; [constructor|].
  destruct c.
  - pose proof (start_process_fields fuel t w) as [Hmax _].
    destruct (start_process fuel t w) as [[u|e|] [t' w']]; simpl in Hmax;
      repeat constructor; auto.
    specialize (IH t' w'). rewrite Hmax in IH. exact IH.
  - constructor; [reflexivity|]. apply (IH (end_process t) w).
Qed.

Lemma run_calls_nonnegative fuel calls : forall (t : ProcessThrottler) (w : W),
  (0 <= process_count t)%Z ->
  Forall (fun t' => (0 <= process_count t')%Z) (run_calls fuel calls t w).
Proof.
  induction calls as [|c rest IH]; intros t w Ht; simpl; [constructor|].
  destruct c.
  - pose proof (start_process_fields fuel t w) as [_ Hcnt].
    destruct (start_process fuel t w) as [[u|e|] [t' w']]; simpl in Hcnt;
      repeat constructor; try lia.
    apply IH. lia.
  - assert (0 <= process_count (end_process t))%Z by (simpl; lia).
    constructor; auto.
Qed.

End LimiterFacts.

(** C6. The budget is [max(1, cpu_count // 2)], with the floor division
    of integers: 2 for four cores, 1 for one core. The constructor
    computes it, and no call of [start_process] or [end_process]
    changes it. *)
Theorem max_concurrent_is_half_the_cores :
  (forall cpu_count : Z,
     _calculate_max_concurrent (Some cpu_count) = Returned (Z.max 1 (cpu_count / 2)))
  /\ _calculate_max_concurrent (Some 4%Z) = Returned 2%Z
  /\ _calculate_max_concurrent (Some 1%Z) = Returned 1%Z
  /\ (forall cpu_count : Z,
        ProcessThrottler_init (Some cpu_count)
        = Returned {| process_count := 0; max_concurrent := Z.max 1 (cpu_count / 2) |})
  /\ (forall (W : Type) (RT : Runtime W) fuel calls (t : ProcessThrottler) (w : W),
        Forall (fun t' => max_concurrent t' = max_concurrent t)
               (run_calls fuel calls t w)).
Proof.
  split; [reflexivity|]. split; [reflexivity|]. split; [reflexivity|].
  split; [reflexivity|].
  intros W RT fuel calls t w. apply run_calls_max_concurrent.
Qed.

(** C7. [can_start_process] answers true exactly when
    [process_count < max_concurrent] and the governor is not
    throttling, and it leaves the limiter and the world as they were;
    so it answers false when [process_count >= max_concurrent] whatever
    the flag, and false when the flag is on whatever the count. *)
Theorem can_start_process_admission {W : Type} {RT : Runtime W}
    (t : ProcessThrottler) (w : W) :
  snd (can_start_process t w) = (t, w)
  /\ (fst (can_start_process t w) = true
      <-> (process_count t < max_concurrent t)%Z
          /\ throttle_active (manager w) = false)
  /\ ((process_count t >= max_concurrent t)%Z -> fst (can_start_process t w) = false)
  /\ (throttle_active (manager w) = true -> fst (can_start_process t w) = false).
Proof.
  unfold can_start_process; simpl.
  split; [reflexivity|].
  destruct (Z.ltb_spec (process_count t) (max_concurrent t));
    destruct (throttle_active (manager w)); simpl;
    repeat split; intros; try discriminate; try lia; auto;
    match goal with H : _ /\ _ |- _ => destruct H; (lia || discriminate) end.
Qed.

Lemma can_start_process_admission_witness :
  let full := {| process_count := 2; max_concurrent := 2 |} in
  let free := {| process_count := 0; max_concurrent := 2 |} in
  fst (can_start_process full (Sim.world_at 50 [])) = false
  /\ fst (can_start_process free (Sim.world_at 95 [])) = false
  /\ fst (can_start_process free (Sim.world_at 50 [])) = true.
Proof.
  intros full free.
  destruct (can_start_process_admission (RT := Sim.runtime) full (Sim.world_at 50 []))
    as (_ & _ & Hfull & _).
  destruct (can_start_process_admission (RT := Sim.runtime) free (Sim.world_at 95 []))
    as (_ & _ & _ & Hthr).
  destruct (can_start_process_admission (RT := Sim.runtime) free (Sim.world_at 50 []))
    as (_ & [_ Hyes] & _ & _).
  split; [|split].
  - apply Hfull. simpl. lia.
  - apply Hthr. reflexivity.
  - apply Hyes. split; [simpl; lia | reflexivity].
Defined.

(** C8. [end_process] takes one off the counter and stops at 0: it
    leaves a counter that is not negative whatever it was, and 0 on a
    limiter that never began a process. Over any sequence of
    [start_process] and [end_process] calls on a counter that is not
    negative, the counter is not negative after any of the calls. *)
Theorem process_count_never_negative :
  (forall t : ProcessThrottler, (0 <= process_count (end_process t))%Z)
  /\ (forall t : ProcessThrottler,
        process_count (end_process t) = Z.max 0 (process_count t - 1))
  /\ (forall cpu_count t,
        ProcessThrottler_init cpu_count = Returned t ->
        process_count (end_process t) = 0%Z)
  /\ (forall (W : Type) (RT : Runtime W) fuel calls (t : ProcessThrottler) (w : W),
        (0 <= process_count t)%Z ->
        Forall (fun t' => (0 <= process_count t')%Z) (run_calls fuel calls t w)).
Proof.
  split; [intros t; simpl; lia|]. split; [reflexivity|]. split.
  - intros [n|] t; simpl; [|discriminate].
    intros H. injection H as <-. reflexivity.
  - intros W RT fuel calls t w. apply run_calls_nonnegative.
Qed.

Lemma process_count_never_negative_witness :
  let t0 := {| process_count := 0; max_concurrent := 2 |} in
  process_count (end_process t0) = 0%Z
  /\ Forall (fun t' => (0 <= process_count t')%Z)
       (run_calls 3 [End_; Begin; End_; End_; Begin; Begin] t0 (Sim.world_at 50 [])).
Proof.
  intros t0.
  destruct process_count_never_negative as (_ & _ & Hfresh & Hseq).
  split.
  - apply (Hfresh (Some 4%Z)). reflexivity.
  - apply (Hseq Sim.world Sim.runtime). simpl. lia.
Defined.

Example run_calls_counts :
  map process_count
    (run_calls 3 [End_; Begin; End_; End_; Begin; Begin]
       {| process_count := 0; max_concurrent := 2 |} (Sim.world_at 50 []))
  = [0; 1; 0; 0; 1; 2]%Z.
Proof. reflexivity. Qed.

(** ** Lists cut into batches *)

Lemma firstn_plus {A : Type} (n k : nat) : forall l : list A,
  firstn (n + k) l = firstn n l ++ firstn k (skipn n l).
Proof.
  induction n as [|n IH]; intros l; simpl; [reflexivity|].
  destruct l as [|a l]; simpl.
  - now destruct k.
  - now rewrite IH.
Qed.

Lemma skipn_plus {A : Type} (n k : nat) : forall l : list A,
  skipn k (skipn n l) = skipn (n + k) l.
Proof.
  induction n as [|n IH]; intros l; simpl; [reflexivity|].
  destruct l as [|a l]; simpl; [now destruct k | apply IH].
Qed.

Lemma Forall_skipn_keeps {A : Type} (P : A -> Prop) (n : nat) : forall l : list A,
  Forall P l -> Forall P (skipn n l).
Proof.
  induction n as [|n IH]; intros l H; simpl; [exact H|].
  destruct H; [constructor | now apply IH].
Qed.

Lemma Forall_firstn_keeps {A : Type} (P : A -> Prop) (n : nat) : forall l : list A,
  Forall P l -> Forall P (firstn n l).
Proof.
  induction n as [|n IH]; intros l H; simpl; [constructor|].
  destruct H; constructor; auto.
Qed.

Lemma batches_cover (n : nat) (b : Z) :
  (0 < b)%Z ->
  (n <= Z.to_nat ((Z.of_nat n + b - 1) / b) * Z.to_nat b)%nat.
Proof.
  intros Hb.
  assert (Hq : (0 <= (Z.of_nat n + b - 1) / b)%Z) by (apply Z.div_pos; lia).
  rewrite <- Z2Nat.inj_mul by lia.
  rewrite <- (Nat2Z.id n) at 1.
  apply Z2Nat.inj_le; try lia.
  pose proof (Z.div_mod (Z.of_nat n + b - 1) b ltac:(lia)) as Hdm.
  pose proof (Z.mod_pos_bound (Z.of_nat n + b - 1) b Hb) as Hr.
  lia.
Qed.

Example range_from_zero_values :
  range_from_zero 5 2 = Returned [0; 2; 4]%nat
  /\ range_from_zero 4 2 = Returned [0; 2]%nat
  /\ range_from_zero 0 2 = Returned []
  /\ range_from_zero 3 (-1) = Returned []
  /\ range_from_zero 3 0 = Raised ValueError.
Proof. repeat split; reflexivity. Qed.

Lemma range_from_zero_positive (stop step : Z) :
  (0 < step)%Z ->
  range_from_zero stop step
  = Returned (multiples (Z.to_nat step) 0 (Z.to_nat ((stop + step - 1) / step))).
Proof.
  intros H. unfold range_from_zero.
  destruct (Z.eqb_spec step 0); [lia|].
  destruct (Z.ltb_spec step 0); [lia|]. reflexivity.
Qed.

(** ** The batch runner *)

Section BatchFacts.

Context {W : Type} {RT : Runtime W} {R : Type}.
Variable I : W -> Prop.
Variable fuel : nat.
Hypothesis Hsteady : steady I fuel.

Lemma adaptive_sleep_steady base (w : W) :
  I w -> exists w', adaptive_sleep base w = (Returned tt, w') /\ I w'.
Proof.
  intros Hw. unfold adaptive_sleep, sleep. eexists. split; [reflexivity|].
  now apply (proj1 Hsteady).
Qed.

Lemma execute_batch_returns (batch : list (task W R)) :
  forall (acc : list R) (w : W),
    I w ->
    Forall (task_returns I) batch ->
    exists rs w',
      execute_batch batch acc w = (Returned (acc ++ rs), w')
      /\ I w'
      /\ Forall2 produced_by (filter callable batch) rs.
Proof.
  induction batch as [|[call|] rest IH]; intros acc w Hw Hall.
  - exists [], w. simpl. rewrite app_nil_r. repeat split; auto.
  - inversion Hall as [|? ? Hcall Hrest]; subst.
    destruct (Hcall w Hw) as (r & w1 & Hr & Hw1).
    destruct (adaptive_sleep_steady 0.2%float w1 Hw1) as (w2 & Hs & Hw2).
    destruct (IH (acc ++ [r]) w2 Hw2 Hrest) as (rs & w3 & Hrun & Hw3 & Hprod).
    exists (r :: rs), w3.
    cbn [execute_batch]. unfold bind at 1. rewrite Hr.
    unfold bind at 1. rewrite Hs, Hrun.
    rewrite <- app_assoc. simpl. repeat split; auto.
    constructor; auto. simpl. eauto.
  - inversion Hall as [|? ? _ Hrest]; subst.
    destruct (IH acc w Hw Hrest) as (rs & w3 & Hrun & Hw3 & Hprod).
    exists rs, w3. simpl. auto.
Qed.

Lemma execute_batch_raises (pre : list (task W R)) :
  forall (call : M W R) (post : list (task W R)) (e : exception)
         (acc : list R) (w : W),
    I w ->
    Forall (task_returns I) pre ->
    call_raises I call e ->
    exists w1 w',
      execute_batch (pre ++ Callable call :: post) acc w = (Raised e, w')
      /\ call w1 = (Raised e, w').
Proof.
  induction pre as [|[c|] rest IH]; intros call post e acc w Hw Hall Hraise.
  - destruct (Hraise w Hw) as (w' & Hr).
    exists w, w'. simpl. unfold bind. rewrite Hr. auto.
  - inversion Hall as [|? ? Hc Hrest]; subst.
    destruct (Hc w Hw) as (r & w1 & Hr & Hw1).
    destruct (adaptive_sleep_steady 0.2%float w1 Hw1) as (w2 & Hs & Hw2).
    destruct (IH call post e (acc ++ [r]) w2 Hw2 Hrest Hraise)
      as (wa & wb & Hrun & Hcall).
    exists wa, wb. split; [|exact Hcall].
    cbn [app execute_batch]. unfold bind at 1. rewrite Hr.
    unfold bind at 1. rewrite Hs. exact Hrun.
  - inversion Hall as [|? ? _ Hrest]; subst.
    destruct (IH call post e acc w Hw Hrest Hraise) as (wa & wb & Hrun & Hcall).
    exists wa, wb. simpl. auto.
Qed.

Variable tasks : list (task W R).
Variable b : Z.
Hypothesis Hb : (0 < b)%Z.

Lemma execute_batches_step (a cnt : nat) (acc : list R) (w : W) :
  execute_batches fuel tasks b (multiples (Z.to_nat b) a (S cnt)) acc w
  = bind (wait_for_cpu fuel None)
      (fun _ =>
         bind (execute_batch
                 (firstn (Z.to_nat b) (skipn (a * Z.to_nat b) tasks)) acc)
           (fun results =>
              bind (adaptive_sleep 1.0%float)
                (fun _ =>
                   execute_batches fuel tasks b (multiples (Z.to_nat b) (S a) cnt) results))) w.
Proof. reflexivity. Qed.

Lemma execute_batches_returns (cnt : nat) :
  forall (a : nat) (acc : list R) (w : W),
    I w ->
    Forall (task_returns I) tasks ->
    exists rs w',
      execute_batches fuel tasks b (multiples (Z.to_nat b) a cnt) acc w
        = (Returned (acc ++ rs), w')
      /\ I w'
      /\ Forall2 produced_by
           (filter callable
              (firstn (cnt * Z.to_nat b) (skipn (a * Z.to_nat b) tasks)))
           rs.
Proof.
  induction cnt as [|cnt IH]; intros a acc w Hw Hall.
  - exists [], w. simpl. rewrite app_nil_r. repeat split; auto.
  - destruct (proj2 Hsteady w Hw) as (w1 & Hwait & Hw1).
    assert (Hbatch : Forall (task_returns I)
              (firstn (Z.to_nat b) (skipn (a * Z.to_nat b) tasks)))
      by now apply Forall_firstn_keeps, Forall_skipn_keeps.
    destruct (execute_batch_returns _ acc w1 Hw1 Hbatch)
      as (rs1 & w2 & Hrun1 & Hw2 & Hprod1).
    destruct (adaptive_sleep_steady 1.0%float w2 Hw2) as (w3 & Hs & Hw3).
    destruct (IH (S a) (acc ++ rs1) w3 Hw3 Hall)
      as (rs2 & w4 & Hrun2 & Hw4 & Hprod2).
    exists (rs1 ++ rs2), w4.
    rewrite execute_batches_step.
    unfold bind at 1. rewrite Hwait.
    unfold bind at 1. rewrite Hrun1.
    unfold bind at 1. rewrite Hs, Hrun2.
    rewrite app_assoc. repeat split; auto.
    change (S cnt * Z.to_nat b)%nat with (Z.to_nat b + cnt * Z.to_nat b)%nat.
    rewrite firstn_plus, filter_app, skipn_plus.
    apply Forall2_app; [exact Hprod1|].
    replace (a * Z.to_nat b + Z.to_nat b)%nat with (S a * Z.to_nat b)%nat by (simpl; lia).
    exact Hprod2.
Qed.

Lemma execute_batches_raises (e : exception) (cnt : nat) :
  forall (a : nat) (acc : list R) (w : W)
         (pre : list (task W R)) (call : M W R) (post : list (task W R)),
    I w ->
    skipn (a * Z.to_nat b) tasks = pre ++ Callable call :: post ->
    (length pre < cnt * Z.to_nat b)%nat ->
    Forall (task_returns I) pre ->
    call_raises I call e ->
    exists w1 w',
      execute_batches fuel tasks b (multiples (Z.to_nat b) a cnt) acc w = (Raised e, w')
      /\ call w1 = (Raised e, w').
Proof.
  induction cnt as [|cnt IH]; intros a acc w pre call post Hw Hcut Hlen Hpre Hraise.
  - simpl in Hlen. lia.
  - destruct (proj2 Hsteady w Hw) as (w1 & Hwait & Hw1).
    rewrite execute_batches_step.
    unfold bind at 1. rewrite Hwait. rewrite Hcut.
    destruct (Nat.lt_ge_cases (length pre) (Z.to_nat b)) as [Hin|Hout].
    + (* the raising task is in this batch *)
      rewrite firstn_app, (firstn_all2 pre) by lia.
      destruct (Z.to_nat b - length pre)%nat as [|k] eqn:Hk; [lia|].
      cbn [firstn].
      destruct (execute_batch_raises pre call (firstn k post) e acc w1 Hw1 Hpre Hraise)
        as (wa & wb & Hrun & Hcall).
      exists wa, wb. split; [|exact Hcall].
      unfold bind at 1. now rewrite Hrun.
    + (* this batch returns, the raising task comes later *)
      rewrite firstn_app.
      replace (Z.to_nat b - length pre)%nat with 0%nat by lia.
      cbn [firstn]. rewrite app_nil_r.
      assert (Hbatch : Forall (task_returns I) (firstn (Z.to_nat b) pre))
        by now apply Forall_firstn_keeps.
      destruct (execute_batch_returns _ acc w1 Hw1 Hbatch)
        as (rs1 & w2 & Hrun1 & Hw2 & _).
      destruct (adaptive_sleep_steady 1.0%float w2 Hw2) as (w3 & Hs & Hw3).
      unfold bind at 1. rewrite Hrun1.
      unfold bind at 1. rewrite Hs.
      apply (IH (S a) (acc ++ rs1) w3 (skipn (Z.to_nat b) pre) call post); auto.
      * replace (S a * Z.to_nat b)%nat with (a * Z.to_nat b + Z.to_nat b)%nat
          by (simpl; lia).
        rewrite <- skipn_plus, Hcut, skipn_app.
        replace (Z.to_nat b - length pre)%nat with 0%nat by lia.
        reflexivity.
      * rewrite length_skipn. simpl in Hlen. lia.
      * now apply Forall_skipn_keeps.
Qed.

End BatchFacts.

Section BatchClaims.

Context {W : Type} {RT : Runtime W} {R : Type}.

Lemma throttled_batch_execute_unfold (fuel : nat) (t : ProcessThrottler)
    (tasks : list (task W R)) (batch_size : option Z) :
  (0 < batch_size_in_force t batch_size)%Z ->
  let b := batch_size_in_force t batch_size in
  throttled_batch_execute fuel t tasks batch_size
  = execute_batches fuel tasks b
      (multiples (Z.to_nat b) 0
                 (Z.to_nat ((Z.of_nat (length tasks) + b - 1) / b)))
      [].
Proof.
  intros Hb b. unfold throttled_batch_execute.
  fold (batch_size_in_force t batch_size). fold b.
  now rewrite (range_from_zero_positive _ b Hb).
Qed.

Lemma throttled_batch_execute_returns (I : W -> Prop) (fuel : nat)
    (t : ProcessThrottler) (tasks : list (task W R)) (batch_size : option Z) (w : W) :
  steady I fuel ->
  I w ->
  (0 < batch_size_in_force t batch_size)%Z ->
  Forall (task_returns I) tasks ->
  exists results w',
    throttled_batch_execute fuel t tasks batch_size w = (Returned results, w')
    /\ Forall2 produced_by (filter callable tasks) results.
Proof.
  intros Hsteady Hw Hb Hall.
  rewrite (throttled_batch_execute_unfold fuel t tasks batch_size Hb).
  set (b := batch_size_in_force t batch_size) in *.
  destruct (execute_batches_returns I fuel Hsteady tasks b
              (Z.to_nat ((Z.of_nat (length tasks) + b - 1) / b)) 0 [] w Hw Hall)
    as (rs & w' & Hrun & _ & Hprod).
  exists rs, w'. split; [exact Hrun|].
  simpl skipn in Hprod.
  rewrite firstn_all2 in Hprod; [exact Hprod|].
  now apply batches_cover.
Qed.

Lemma throttled_batch_execute_raises (I : W -> Prop) (fuel : nat)
    (t : ProcessThrottler) (batch_size : option Z) (w : W)
    (pre : list (task W R)) (call : M W R) (post : list (task W R)) (e : exception) :
  steady I fuel ->
  I w ->
  (0 < batch_size_in_force t batch_size)%Z ->
  Forall (task_returns I) pre ->
  call_raises I call e ->
  exists w1 w',
    throttled_batch_execute fuel t (pre ++ Callable call :: post) batch_size w
      = (Raised e, w')
    /\ call w1 = (Raised e, w').
Proof.
  intros Hsteady Hw Hb Hpre Hraise.
  rewrite (throttled_batch_execute_unfold fuel t _ batch_size Hb).
  set (b := batch_size_in_force t batch_size) in *.
  apply (execute_batches_raises I fuel Hsteady (pre ++ Callable call :: post) b Hb e
           _ 0 [] w pre call post); auto.
  eapply Nat.lt_le_trans; [|apply batches_cover; exact Hb].
  rewrite length_app. simpl. lia.
Qed.

End BatchClaims.

(** Three tasks in batches of two, the governor calm: the results come
    in the order of the tasks. *)
Example throttled_batch_execute_in_order :
  fst (throttled_batch_execute 3 {| process_count := 0; max_concurrent := 2 |}
         [Sim.returning 1%Z; Sim.returning 2%Z; Sim.returning 3%Z] None
         (Sim.world_at 50 []))
  = Returned [1%Z; 2%Z; 3%Z].
Proof. reflexivity. Qed.

(** P7 of the specification: the second of three tasks raises. *)
Example throttled_batch_execute_second_raises :
  fst (throttled_batch_execute 3 {| process_count := 0; max_concurrent := 2 |}
         [Sim.returning 1%Z; Sim.raising (TaskError 7); Sim.returning 3%Z] None
         (Sim.world_at 50 []))
  = Raised (TaskError 7).
Proof. reflexivity. Qed.

(** An object that cannot be called among the tasks. *)
Example throttled_batch_execute_skips :
  fst (throttled_batch_execute 3 {| process_count := 0; max_concurrent := 2 |}
         [Sim.returning 1%Z; NotCallable; Sim.returning 3%Z] None
         (Sim.world_at 50 []))
  = Returned [1%Z; 3%Z].
Proof. reflexivity. Qed.

(** A batch size of zero is refused by [range], a negative one runs
    nothing. *)
Example throttled_batch_execute_batch_size_not_positive :
  fst (throttled_batch_execute 3 {| process_count := 0; max_concurrent := 2 |}
         [Sim.returning 1%Z] (Some 0%Z) (Sim.world_at 50 []))
  = Raised ValueError
  /\ fst (throttled_batch_execute 3 {| process_count := 0; max_concurrent := 2 |}
            [Sim.returning 1%Z] (Some (-1)%Z) (Sim.world_at 50 []))
     = Returned [].
Proof. split; reflexivity. Qed.

Lemma calm_steady (fuel : nat) : steady Sim.calm fuel.
Proof.
  split.
  - intros d w. apply calm_sleep.
  - intros w Hw. exists w. split; [now apply calm_wait | exact Hw].
Qed.

Lemma returning_returns {R : Type} (I : Sim.world -> Prop) (r : R) :
  task_returns I (Sim.returning r).
Proof. intros w Hw. exists r, w. auto. Qed.

Lemma raising_raises {R : Type} (I : Sim.world -> Prop) (e : exception) :
  call_raises (R := R) I (fun w => (Raised e, w)) e.
Proof. intros w Hw. exists w. auto. Qed.

(** C5. With a batch size in force that is positive, in worlds where
    every wait gets through, a list of callable tasks that all return
    makes [throttled_batch_execute] return one result per task, the
    [i]-th result being what the [i]-th task returned. When a task
    raises after tasks that return, [throttled_batch_execute] raises
    that same exception, from the world in which the task left it:
    nothing runs after the failed task and no list of results is
    returned. *)
Theorem throttled_batch_execute_order_and_errors {W : Type} {RT : Runtime W} {R : Type}
    (I : W -> Prop) (fuel : nat) (t : ProcessThrottler) (batch_size : option Z) (w : W) :
  steady I fuel ->
  I w ->
  (0 < batch_size_in_force t batch_size)%Z ->
  (forall tasks : list (task W R),
     Forall (fun tk => callable tk = true) tasks ->
     Forall (task_returns I) tasks ->
     exists results w',
       throttled_batch_execute fuel t tasks batch_size w = (Returned results, w')
       /\ Forall2 produced_by tasks results)
  /\ (forall (pre : list (task W R)) (call : M W R) (post : list (task W R)) e,
        Forall (task_returns I) pre ->
        call_raises I call e ->
        exists w1 w',
          throttled_batch_execute fuel t (pre ++ Callable call :: post) batch_size w
            = (Raised e, w')
          /\ call w1 = (Raised e, w')).
Proof.
  intros Hsteady Hw Hb. split.
  - intros tasks Hcallable Hall.
    destruct (throttled_batch_execute_returns I fuel t tasks batch_size w
                Hsteady Hw Hb Hall) as (results & w' & Hrun & Hprod).
    exists results, w'. split; [exact Hrun|].
    replace (filter callable tasks) with tasks in Hprod; [exact Hprod|].
    clear -Hcallable. induction Hcallable as [|tk l Htk _ IH]; simpl; [reflexivity|].
    rewrite Htk. now f_equal.
  - intros pre call post e Hpre Hraise.
    now apply (throttled_batch_execute_raises I fuel t batch_size w pre call post e).
Qed.

Lemma throttled_batch_execute_order_and_errors_witness :
  let t := {| process_count := 0; max_concurrent := 2 |} in
  (exists results w',
     throttled_batch_execute 3 t
       [Sim.returning 1%Z; Sim.returning 2%Z; Sim.returning 3%Z] None
       (Sim.world_at 50 []) = (Returned results, w')
     /\ Forall2 produced_by
          [Sim.returning 1%Z; Sim.returning 2%Z; Sim.returning 3%Z] results)
  /\ (exists w',
        throttled_batch_execute 3 t
          [Sim.returning 1%Z; Sim.raising (TaskError 7); Sim.returning 3%Z] None
          (Sim.world_at 50 []) = (Raised (TaskError 7), w')).
Proof.
  intros t.
  destruct (throttled_batch_execute_order_and_errors (RT := Sim.runtime) (R := Z)
              Sim.calm 3 t None (Sim.world_at 50 []))
    as [Horder Herr].
  - apply calm_steady.
  - split; reflexivity.
  - simpl. lia.
  - split.
    + apply Horder.
      * repeat constructor.
      * repeat constructor; apply returning_returns.
    + destruct (Herr [Sim.returning 1%Z] (fun w => (Raised (TaskError 7), w))
                  [Sim.returning 3%Z] (TaskError 7)) as (w1 & w' & Hrun & _).
      * repeat constructor; apply returning_returns.
      * apply raising_raises.
      * exists w'. exact Hrun.
Defined.

(** C10. An object that cannot be called is passed over: in worlds
    where every wait gets through and with tasks that return, the call
    returns (nothing is raised), the results are those of the callable
    tasks in their order, their number is the number of callable
    tasks, and it is less than the number of tasks as soon as one of
    them cannot be called. *)
Theorem throttled_batch_execute_skips_non_callable {W : Type} {RT : Runtime W} {R : Type}
    (I : W -> Prop) (fuel : nat) (t : ProcessThrottler)
    (tasks : list (task W R)) (batch_size : option Z) (w : W) :
  steady I fuel ->
  I w ->
  (0 < batch_size_in_force t batch_size)%Z ->
  Forall (task_returns I) tasks ->
  exists results w',
    throttled_batch_execute fuel t tasks batch_size w = (Returned results, w')
    /\ Forall2 produced_by (filter callable tasks) results
    /\ length results = length (filter callable tasks)
    /\ (In NotCallable tasks -> (length results < length tasks)%nat).
Proof.
  intros Hsteady Hw Hb Hall.
  destruct (throttled_batch_execute_returns I fuel t tasks batch_size w
              Hsteady Hw Hb Hall) as (results & w' & Hrun & Hprod).
  exists results, w'. split; [exact Hrun|]. split; [exact Hprod|].
  assert (Hlen : length results = length (filter callable tasks))
    by (symmetry; eapply Forall2_length; exact Hprod).
  split; [exact Hlen|].
  intros Hin. rewrite Hlen. clear -Hin.
  induction tasks as [|tk l IH]; [contradiction|].
  destruct Hin as [->|Hin].
  - simpl. pose proof (filter_length_le callable l). lia.
  - specialize (IH Hin). simpl. destruct (callable tk); simpl; lia.
Qed.

Lemma throttled_batch_execute_skips_non_callable_witness :
  exists results w',
    throttled_batch_execute 3 {| process_count := 0; max_concurrent := 2 |}
      [Sim.returning 1%Z; NotCallable; Sim.returning 3%Z] (Some 2%Z)
      (Sim.world_at 50 []) = (Returned results, w')
    /\ Forall2 produced_by [Sim.returning 1%Z; Sim.returning 3%Z] results
    /\ length results = 2%nat
    /\ (length results < 3)%nat.
Proof.
  destruct (throttled_batch_execute_skips_non_callable (RT := Sim.runtime) (R := Z)
              Sim.calm 3 {| process_count := 0; max_concurrent := 2 |}
              [Sim.returning 1%Z; NotCallable; Sim.returning 3%Z] (Some 2%Z)
              (Sim.world_at 50 []))
    as (results & w' & Hrun & Hprod & Hlen & Hless).
  - apply calm_steady.
  - split; reflexivity.
  - simpl. lia.
  - repeat constructor; apply returning_returns.
  - exists results, w'. split; [exact Hrun|]. split; [exact Hprod|].
    split; [exact Hlen|]. apply Hless. right. left. reflexivity.
Defined.

(* ===================================================================== *)
(** * Further properties of the governor *)
(* ===================================================================== *)

(** ** Starting, stopping and the singleton *)

Lemma start_monitoring_shared (g : Lifecycle.governor) :
  Lifecycle.shared (fst (Lifecycle.start_monitoring g))
  = start_monitoring (Lifecycle.shared g).
Proof.
  unfold Lifecycle.start_monitoring, start_monitoring.
  destruct (monitoring (Lifecycle.shared g)); reflexivity.
Qed.

(** X1. [start_monitoring] leaves the governor monitoring and touches
    no other field of the shared state; a call on a governor that is
    already monitoring changes nothing, starts no thread and logs
    nothing, so two calls in a row start one thread. *)
Theorem start_monitoring_idempotent (g : Lifecycle.governor) :
  let g1 := fst (Lifecycle.start_monitoring g) in
  monitoring (Lifecycle.shared g1) = true
  /\ Lifecycle.shared g1 = set_monitoring true (Lifecycle.shared g)
  /\ Lifecycle.start_monitoring g1 = (g1, [])
  /\ (length (filter Lifecycle.is_thread_start
                (snd (Lifecycle.start_monitoring g)
                   ++ snd (Lifecycle.start_monitoring g1))) <= 1)%nat.
Proof.
  unfold Lifecycle.start_monitoring.
  destruct g as [[mx ci mon cur thr] th]; simpl.
  destruct mon; simpl; repeat split; auto.
Qed.

Lemma stopped_pass (w : Sim.world) :
  monitoring (Sim.mgr w) = false ->
  Sim.mgr (wait_pass w) = Sim.mgr w.
Proof.
  intros Hmon. unfold wait_pass; simpl.
  unfold Sim.sleep_in, Sim.monitor_turn, Sim.log_in; simpl.
  destruct (Sim.pending w) as [|i rest]; simpl; [reflexivity|].
  destruct i; simpl; rewrite Hmon; reflexivity.
Qed.

Lemma stopped_after_passes (k : nat) : forall w : Sim.world,
  monitoring (Sim.mgr w) = false ->
  Sim.mgr (after_passes k w) = Sim.mgr w.
Proof.
  induction k as [|k IH]; intros w Hmon; cbn [after_passes]; [reflexivity|].
  rewrite IH.
  - now apply stopped_pass.
  - now rewrite (stopped_pass w Hmon).
Qed.

(** X2. [stop_monitoring] clears [monitoring] and nothing else: the
    reading and [throttle_active] stay as they were. A governor stopped
    while it throttles therefore throttles for good: whatever readings
    would still have come, a wait without timeout on it is still
    blocked after any number of passes. *)
Theorem stop_monitoring_keeps_throttle (g : Lifecycle.governor)
    (w : Sim.world) (fuel : nat) :
  throttle_active (Lifecycle.shared g) = true ->
  Sim.mgr w = Lifecycle.shared (fst (Lifecycle.stop_monitoring g)) ->
  Lifecycle.shared (fst (Lifecycle.stop_monitoring g))
    = set_monitoring false (Lifecycle.shared g)
  /\ fst (wait_for_cpu fuel None w) = Blocked.
Proof.
  intros Hthr Hw. split; [reflexivity|].
  assert (Hmon : monitoring (Sim.mgr w) = false) by (rewrite Hw; reflexivity).
  assert (Ht : throttle_active (Sim.mgr w) = true) by (rewrite Hw; exact Hthr).
  rewrite (wait_for_cpu_blocked None fuel w); [reflexivity|].
  intros j _. split; [|reflexivity].
  simpl. now rewrite (stopped_after_passes j w Hmon).
Qed.

Lemma stop_monitoring_keeps_throttle_witness :
  fst (wait_for_cpu 4 None
         {| Sim.mgr := set_monitoring false (Sim.governor_at 95);
            Sim.clock := 0%float;
            Sim.pending := [Monitor.CpuPercent 10; Monitor.CpuPercent 10];
            Sim.slept := [];
            Sim.logged := [] |}) = Blocked.
Proof.
  apply (stop_monitoring_keeps_throttle
           {| Lifecycle.shared := Sim.governor_at 95; Lifecycle.monitor_thread := true |}).
  - reflexivity.
  - reflexivity.
Defined.

Lemma run_module_installed (events : list Lifecycle.module_event) :
  forall g : Lifecycle.governor,
    monitoring (Lifecycle.shared g) = true ->
    let r := Lifecycle.run_module events (Some g) in
    Forall (fun g' =>
              max_cpu_percent (Lifecycle.shared g') = max_cpu_percent (Lifecycle.shared g)
              /\ check_interval (Lifecycle.shared g') = check_interval (Lifecycle.shared g)
              /\ monitoring (Lifecycle.shared g') = true)
           (fst r)
    /\ snd r = [].
Proof.
  induction events as [|ev rest IH]; intros g Hmon; simpl.
  - split; constructor.
  - destruct ev as [max_cpu|x]; simpl.
    + destruct (IH g Hmon) as [Hall Hfx].
      destruct (Lifecycle.run_module rest (Some g)) as [gs fxs]; simpl in *.
      split; [constructor; auto | exact Hfx].
    + rewrite Hmon.
      pose proof (iteration_fields x (Lifecycle.shared g)) as (_ & Hmx & Hci & Hm & _).
      set (g1 := {| Lifecycle.shared := fst (Monitor.iteration x (Lifecycle.shared g));
                    Lifecycle.monitor_thread := Lifecycle.monitor_thread g |}).
      assert (Hmon1 : monitoring (Lifecycle.shared g1) = true)
        by (simpl; now rewrite Hm).
      destruct (IH g1 Hmon1) as [Hall Hfx]. split; [|exact Hfx].
      eapply Forall_impl; [|exact Hall]. simpl.
      intros g' (H1 & H2 & H3). rewrite H1, H2, Hmx, Hci. auto.
Qed.

(** X3. The governor of the module is made once. From an empty global,
    the first [get_cpu_manager(max_cpu)] builds it with that ceiling
    and starts its thread; every later call, whatever its [max_cpu] and
    whatever the monitor thread has read in between, hands out a
    governor with the ceiling of the first call, still monitoring, and
    starts no second thread. *)
Theorem get_cpu_manager_first_ceiling_wins
    (first_max_cpu : float) (events : list Lifecycle.module_event) :
  let r := Lifecycle.run_module (Lifecycle.GetCpuManager first_max_cpu :: events) None in
  Forall (fun g => max_cpu_percent (Lifecycle.shared g) = first_max_cpu
                   /\ check_interval (Lifecycle.shared g) = 1.0%float
                   /\ monitoring (Lifecycle.shared g) = true)
         (fst r)
  /\ length (fst r)
     = S (length (filter (fun ev => match ev with
                                    | Lifecycle.GetCpuManager _ => true
                                    | _ => false
                                    end) events))
  /\ snd r = [Lifecycle.ThreadStart; Lifecycle.LogStarted first_max_cpu].
Proof.
  cbn [Lifecycle.run_module Lifecycle.get_cpu_manager].
  unfold Lifecycle.start_monitoring, Lifecycle.init. simpl.
  set (g0 := {| Lifecycle.shared := set_monitoring true (CPUManager_init first_max_cpu 1);
                Lifecycle.monitor_thread := true |}).
  destruct (run_module_installed events g0 eq_refl) as [Hall Hfx].
  assert (Hlen : forall evs g,
            length (fst (Lifecycle.run_module evs (Some g)))
            = length (filter (fun ev => match ev with
                                        | Lifecycle.GetCpuManager _ => true
                                        | _ => false
                                        end) evs)).
  { induction evs as [|ev evs IHe]; intros g; simpl; [reflexivity|].
    destruct ev as [mc|x]; simpl.
    - specialize (IHe g).
      destruct (Lifecycle.run_module evs (Some g)) as [gs fxs]; simpl in *.
      now rewrite IHe.
    - destruct (monitoring (Lifecycle.shared g)); apply IHe. }
  specialize (Hlen events g0).
  destruct (Lifecycle.run_module events (Some g0)) as [gs fxs]; simpl in *.
  subst fxs. repeat split; auto.
Qed.

(** ** More on the sampling loop *)




Lemma iteration_forgets (x y : float) (m : CPUManager) :
  fst (Monitor.iteration x (fst (Monitor.iteration y m)))
  = fst (Monitor.iteration x m).
Proof.
  unfold Monitor.iteration; simpl.
  destruct (PyFloat.ge y (max_cpu_percent m)); simpl;
    destruct (PyFloat.ge x (max_cpu_percent m)); reflexivity.
Qed.

(** X5. The loop keeps no history: while it runs on readings, the
    governor after the last reading [x] is the one a single iteration
    on [x] gives from the start, whatever was read before. *)
Theorem monitor_cpu_state_is_last_reading
    (inputs : list Monitor.input) (x : float) (m : CPUManager) :
  monitoring m = true ->
  forallb Monitor.is_reading inputs = true ->
  Monitor.final (Monitor._monitor_cpu (inputs ++ [Monitor.CpuPercent x]) m)
  = fst (Monitor.iteration x m).
Proof.
  revert m. induction inputs as [|i rest IH]; intros m Hmon Hall; simpl.
  - rewrite Hmon; simpl.
    destruct (Monitor.iteration x m) as [m' fx] eqn:Hit. simpl.
    pose proof (iteration_fields x m) as F. rewrite Hit in F. simpl in F.
    destruct F as (_ & _ & _ & Hm' & _). rewrite Hmon in Hm'.
    now rewrite Hm'.
  - rewrite Hmon; simpl.
    destruct i as [y|e'|]; simpl in Hall; try discriminate.
    destruct (Monitor.iteration y m) as [m' fx] eqn:Hit. simpl.
    pose proof (iteration_fields y m) as F. rewrite Hit in F. simpl in F.
    destruct F as (_ & _ & _ & Hm' & _). rewrite Hmon in Hm'.
    rewrite (IH m' Hm' Hall).
    replace m' with (fst (Monitor.iteration y m)) by now rewrite Hit.
    apply iteration_forgets.
Qed.

Lemma monitor_cpu_state_is_last_reading_witness :
  Monitor.final
    (Monitor._monitor_cpu
       ([Monitor.CpuPercent 95; Monitor.CpuPercent 20] ++ [Monitor.CpuPercent 85])
       (start_monitoring (CPUManager_init 80 1)))
  = fst (Monitor.iteration 85 (start_monitoring (CPUManager_init 80 1))).
Proof.
  apply (monitor_cpu_state_is_last_reading
           [Monitor.CpuPercent 95; Monitor.CpuPercent 20] 85%float); reflexivity.
Defined.



(** ** More on the wait and on throttled execution *)

Section WaitMore.

Context {W : Type} {RT : Runtime W}.

Lemma wait_loop_exit (timeout : option float) (start : float) (fuel : nat) :
  forall (w w' : W) (b : bool),
    wait_loop fuel timeout start w = (Returned b, w') ->
    (exists k, (k <= fuel)%nat /\ w' = after_passes k w)
    /\ (if b then throttle_active (manager w') = false
        else throttle_active (manager w') = true
             /\ timed_out timeout start w' = true).
Proof.
  induction fuel as [|fuel IH]; intros w w' b; cbn [wait_loop];
    destruct (throttle_active (manager w)) eqn:Hth;
    try destruct (timed_out timeout start w) eqn:Hto;
    intros H; try discriminate;
    try (injection H as <- <-; split; [exists 0%nat; split; [lia|reflexivity] | auto]).
  destruct (IH _ _ _ H) as [(k & Hk & ->) Hb].
  split; [|exact Hb]. exists (S k). split; [lia|reflexivity].
Qed.

End WaitMore.

(** X7. What a finished wait tells its caller. When [wait_for_cpu]
    returns [True] the flag was off at its last test, in the world it
    returns in; when it returns [False] the flag was on, the timeout is
    a truthy number and the time waited had reached it. In both cases
    the wait made at most as many passes as its fuel and did nothing
    else. *)
Theorem wait_for_cpu_exit_condition {W : Type} {RT : Runtime W}
    (fuel : nat) (timeout : option float) (w w' : W) (b : bool) :
  wait_for_cpu fuel timeout w = (Returned b, w') ->
  (exists k, (k <= fuel)%nat /\ w' = after_passes k w)
  /\ (b = true -> throttle_active (manager w') = false)
  /\ (b = false ->
      throttle_active (manager w') = true
      /\ exists t, timeout = Some t
                   /\ PyFloat.truthy t = true
                   /\ PyFloat.ge (time_time w' - time_time w)%float t = true).
Proof.
  unfold wait_for_cpu. intros H.
  destruct (wait_loop_exit timeout (time_time w) fuel w w' b H) as [Hk Hb].
  split; [exact Hk|]. split; intros ->.
  - exact Hb.
  - destruct Hb as [Hth Hto]. split; [exact Hth|].
    unfold timed_out in Hto. destruct timeout as [t|]; [|discriminate].
    apply andb_prop in Hto. destruct Hto. exists t. auto.
Qed.

Lemma wait_for_cpu_exit_condition_witness :
  let w := Sim.world_at 95 [] in
  let w' := snd (wait_for_cpu 5 (Some 0.5%float) w) in
  throttle_active (manager w') = true
  /\ exists t, Some 0.5%float = Some t
               /\ PyFloat.truthy t = true
               /\ PyFloat.ge (time_time w' - time_time w)%float t = true.
Proof.
  intros w w'.
  destruct (wait_for_cpu_exit_condition (RT := Sim.runtime) 5 (Some 0.5%float) w w' false
              ltac:(reflexivity)) as (_ & _ & Hfalse).
  apply Hfalse. reflexivity.
Defined.

(** X8. A wait that returned [True] has nothing left to do: called
    again in the world it returned in, with any fuel and any timeout,
    [wait_for_cpu] returns [True] at once, without a sleep or a log
    record. So the second wait of the callers' idiom, [wait_for_cpu()]
    followed by [throttled_execute(f)], does nothing: the pair is the
    wait, then [f], then the guard sleep. *)
Theorem wait_for_cpu_twice {W : Type} {RT : Runtime W} {R : Type}
    (fuel : nat) (timeout : option float) (w w' : W) :
  wait_for_cpu fuel timeout w = (Returned true, w') ->
  (forall fuel' timeout', wait_for_cpu fuel' timeout' w' = (Returned true, w'))
  /\ (forall fuel' (func : M W R),
        bind (wait_for_cpu fuel timeout) (fun _ => throttled_execute fuel' func) w
        = bind func (fun result => bind (sleep 0.1%float) (fun _ => ret result)) w').
Proof.
  intros H.
  destruct (wait_loop_exit timeout (time_time w) fuel w w' true H) as [_ Hth].
  assert (Hagain : forall fuel' timeout',
            wait_for_cpu fuel' timeout' w' = (Returned true, w'))
    by (intros; unfold wait_for_cpu; now apply wait_loop_clear).
  split; [exact Hagain|].
  intros fuel' func. unfold bind at 1. rewrite H.
  unfold throttled_execute. unfold bind at 1. now rewrite Hagain.
Qed.

Lemma wait_for_cpu_twice_witness :
  let w := Sim.world_at 85 [Monitor.CpuPercent 60] in
  let w' := snd (wait_for_cpu 5 None w) in
  wait_for_cpu 0 (Some 0.5%float) w' = (Returned true, w').
Proof.
  intros w w'.
  destruct (wait_for_cpu_twice (RT := Sim.runtime) (R := unit) 5 None w w'
              ltac:(reflexivity)) as [Hagain _].
  apply Hagain.
Defined.

Lemma backoff_sleep_time_values (m : CPUManager) :
  backoff_sleep_time m = 0.5%float
  \/ backoff_sleep_time m = 1.0%float
  \/ backoff_sleep_time m = 2.0%float.
Proof.
  unfold backoff_sleep_time.
  destruct (PyFloat.gt (excess m) 20); auto.
  destruct (PyFloat.gt (excess m) 10); auto.
Qed.

(** X9. In the scripted world, which keeps every sleep and log record
    of the caller: a wait adds one log record per sleep, sleeps at most
    as often as its fuel, and each of its sleeps lasts 0.5, 1.0 or 2.0
    seconds; it never sleeps longer than two seconds without testing
    the flag again. *)
Theorem wait_for_cpu_sleeps (fuel : nat) (timeout : option float) (w : Sim.world) :
  let w' := snd (wait_for_cpu fuel timeout w) in
  exists sleeps records,
    Sim.slept w' = Sim.slept w ++ sleeps
    /\ Sim.logged w' = Sim.logged w ++ records
    /\ length records = length sleeps
    /\ (length sleeps <= fuel)%nat
    /\ Forall (fun d => d = 0.5%float \/ d = 1.0%float \/ d = 2.0%float) sleeps.
Proof.
  unfold wait_for_cpu. generalize (time_time w) as start. intros start.
  revert w. induction fuel as [|fuel IH]; intros w; cbn [wait_loop];
    destruct (throttle_active (manager w));
    try destruct (timed_out timeout start w);
    try (exists [], []; rewrite !app_nil_r; simpl; repeat split; auto; lia).
  destruct (IH (wait_pass w)) as (sleeps & records & Hs & Hl & Hlen & Hfuel & Hall).
  exists (backoff_sleep_time (manager w) :: sleeps),
         (WaitingForCpu (max_cpu_percent (manager w)) (current_cpu_usage (manager w))
            :: records).
  rewrite Hs, Hl. unfold wait_pass; simpl.
  unfold Sim.sleep_in, Sim.log_in; simpl.
  destruct (Sim.monitor_turn _) as [m' rest']; simpl.
  rewrite <- !app_assoc. simpl.
  repeat split; auto; try lia.
  constructor; [apply backoff_sleep_time_values | exact Hall].
Qed.

(** X10. When [throttled_execute] returns [r], [func] was called once,
    in a world where the flag was off and which the wait had reached
    by its passes alone; it returned [r] there, and the guard sleep of
    0.1 second followed. *)
Theorem throttled_execute_returned {W : Type} {RT : Runtime W} {R : Type}
    (fuel : nat) (func : M W R) (w w' : W) (r : R) :
  throttled_execute fuel func w = (Returned r, w') ->
  exists k w1 w2,
    (k <= fuel)%nat
    /\ w1 = after_passes k w
    /\ throttle_active (manager w1) = false
    /\ func w1 = (Returned r, w2)
    /\ w' = time_sleep 0.1%float w2.
Proof.
  unfold throttled_execute. unfold bind at 1.
  destruct (wait_for_cpu fuel None w) as [[b|e|] w1] eqn:Hw; try discriminate.
  unfold wait_for_cpu in Hw.
  destruct (wait_loop_exit None (time_time w) fuel w w1 b Hw) as [(k & Hk & Hw1) Hb].
  destruct b; [|destruct Hb; discriminate].
  unfold bind at 1.
  destruct (func w1) as [[r'|e|] w2] eqn:Hf; try discriminate.
  unfold bind, sleep, ret. intros H. injection H as <- <-.
  exists k, w1, w2. auto.
Qed.

Lemma throttled_execute_returned_witness :
  let w := Sim.world_at 85 [Monitor.CpuPercent 60] in
  let func : M Sim.world Z := fun w => (Returned 7%Z, w) in
  exists k w1 w2,
    (k <= 5)%nat
    /\ w1 = after_passes k w
    /\ throttle_active (manager w1) = false
    /\ func w1 = (Returned 7%Z, w2)
    /\ snd (throttled_execute 5 func w) = time_sleep 0.1%float w2.
Proof.
  intros w func.
  apply (throttled_execute_returned (RT := Sim.runtime) 5 func w
           (snd (throttled_execute 5 func w)) 7%Z).
  reflexivity.
Defined.

(** X11. When the [func] of [throttled_execute] raises, the call raises
    the same exception from the world [func] left: the guard sleep is
    skipped. In full: if the wait gets through to a world [w1] and
    [func] raises [e] there, leaving [w'], then the call raises [e] and
    leaves [w'] (at once when the flag is off at the start); and the
    call raises in no other way, so an exception of the call is one
    that [func] raised in a world where the flag was off. *)
Theorem throttled_execute_raised {W : Type} {RT : Runtime W} {R : Type}
    (fuel : nat) (func : M W R) (w w' : W) (e : exception) :
  (forall w1,
     wait_for_cpu fuel None w = (Returned true, w1) ->
     func w1 = (Raised e, w') ->
     throttled_execute fuel func w = (Raised e, w'))
  /\ (throttle_active (manager w) = false ->
      func w = (Raised e, w') ->
      throttled_execute fuel func w = (Raised e, w'))
  /\ (throttled_execute fuel func w = (Raised e, w') ->
      exists k w1,
        (k <= fuel)%nat
        /\ w1 = after_passes k w
        /\ wait_for_cpu fuel None w = (Returned true, w1)
        /\ throttle_active (manager w1) = false
        /\ func w1 = (Raised e, w')).
Proof.
  assert (Hforward : forall w1,
            wait_for_cpu fuel None w = (Returned true, w1) ->
            func w1 = (Raised e, w') ->
            throttled_execute fuel func w = (Raised e, w')).
  { intros w1 Hwait Hfunc. unfold throttled_execute.
    unfold bind at 1. rewrite Hwait. unfold bind at 1. now rewrite Hfunc. }
  split; [exact Hforward|]. split.
  - intros Hoff Hfunc. apply (Hforward w); [|exact Hfunc].
    unfold wait_for_cpu. now apply wait_loop_clear.
  - unfold throttled_execute. unfold bind at 1.
    destruct (wait_for_cpu fuel None w) as [[b|e0|] w1] eqn:Hw.
    + unfold wait_for_cpu in Hw.
      destruct (wait_loop_exit None (time_time w) fuel w w1 b Hw)
        as [(k & Hk & Hw1) Hb].
      destruct b; [|destruct Hb; discriminate].
      unfold bind at 1.
      destruct (func w1) as [[r'|e1|] w2] eqn:Hf; try discriminate.
      intros H. injection H as <- <-.
      exists k, w1. auto.
    + exfalso. apply (wait_loop_never_raises fuel None (time_time w) w e0).
      unfold wait_for_cpu in Hw. now rewrite Hw.
    + discriminate.
Qed.

Lemma throttled_execute_raised_witness :
  let w := Sim.world_at 85 [Monitor.CpuPercent 60] in
  let w1 := after_passes 1 w in
  let func : M Sim.world Z := fun w => (Raised (TaskError 3), w) in
  throttled_execute 5 func w = (Raised (TaskError 3), w1)
  /\ throttled_execute 5 func (Sim.world_at 50 [])
     = (Raised (TaskError 3), Sim.world_at 50 []).
Proof.
  intros w w1 func.
  destruct (throttled_execute_raised (RT := Sim.runtime) 5 func w w1 (TaskError 3))
    as [Hwaited _].
  destruct (throttled_execute_raised (RT := Sim.runtime) 5 func
              (Sim.world_at 50 []) (Sim.world_at 50 []) (TaskError 3))
    as (_ & Hatonce & _).
  split.
  - apply (Hwaited w1); [|reflexivity].
    apply (wait_for_cpu_returns_true None 1 5 w); [|reflexivity|lia].
    intros j Hj. assert (j = 0)%nat as -> by lia. split; reflexivity.
  - apply Hatonce; reflexivity.
Defined.

(** X12. While the wait is held back, [throttled_execute] does not
    start its [func]: whatever [func] is, the call is still blocked
    in the world the wait has reached. *)
Theorem throttled_execute_blocked {W : Type} {RT : Runtime W} {R : Type}
    (fuel : nat) (func : M W R) (w : W) :
  held_back None (time_time w) (S fuel) w ->
  throttled_execute fuel func w = (Blocked, after_passes fuel w).
Proof.
  intros Hheld. unfold throttled_execute. unfold bind at 1.
  now rewrite (wait_for_cpu_blocked None fuel w Hheld).
Qed.

Lemma throttled_execute_blocked_witness :
  let func : M Sim.world Z := fun w => (Returned 7%Z, w) in
  throttled_execute 2 func (Sim.world_at 95 [])
  = (Blocked, after_passes 2 (Sim.world_at 95 [])).
Proof.
  intros func.
  apply (throttled_execute_blocked (RT := Sim.runtime) 2 func (Sim.world_at 95 [])).
  intros j Hj. split; [|reflexivity].
  destruct j as [|[|[|j]]]; try reflexivity. lia.
Defined.



(* ===================================================================== *)
(** * Further properties of the limiter *)
(* ===================================================================== *)

(** X14. A [start_process] that returns adds exactly one to the
    counter, and on a counter that is not negative the [end_process]
    after it gives the limiter back as it was; a [start_process] that
    is still blocked has not touched the limiter. The other order does
    not cancel on a counter at 0: [end_process] leaves 0 and the
    [start_process] after it leaves 1. *)
Theorem start_then_end_process {W : Type} {RT : Runtime W}
    (fuel : nat) (t t' : ProcessThrottler) (w w' : W) (o : outcome unit) :
  start_process fuel t w = (o, (t', w')) ->
  (o = Returned tt ->
     process_count t' = (process_count t + 1)%Z
     /\ ((0 <= process_count t)%Z -> end_process t' = t)
     /\ (process_count t = 0%Z ->
         forall fuel2 t2 w2,
           start_process fuel2 (end_process t) w = (Returned tt, (t2, w2)) ->
           process_count t2 = 1%Z))
  /\ (o = Blocked -> t' = t).
Proof.
  unfold start_process.
  destruct (wait_for_cpu fuel None w) as [[b|e|] w1] eqn:Hw;
    intros H; injection H as <- <- <-; (split; [|try discriminate; auto]).
  - intros _. simpl. split; [reflexivity|]. split.
    + intros Hpos. destruct t as [c mx]. unfold end_process. simpl in *.
      f_equal. lia.
    + intros H0 fuel2 t2 w2.
      destruct (wait_for_cpu fuel2 None w) as [[b2|e2|] w3]; intros H;
        try discriminate.
      injection H as <- <-. simpl. rewrite H0. reflexivity.
  - discriminate.
  - discriminate.
Qed.

Lemma start_then_end_process_witness :
  let t := {| process_count := 1; max_concurrent := 2 |} in
  let r := start_process 3 t (Sim.world_at 50 []) in
  process_count (fst (snd r)) = 2%Z
  /\ end_process (fst (snd r)) = t.
Proof.
  intros t r.
  destruct (start_then_end_process (RT := Sim.runtime) 3 t (fst (snd r))
              (Sim.world_at 50 []) (snd (snd r)) (Returned tt) ltac:(reflexivity))
    as [Hret _].
  destruct (Hret eq_refl) as (Hcount & Hback & _).
  split; [exact Hcount|]. apply Hback. simpl. lia.
Defined.

Section LimiterMore.

Context {W : Type} {RT : Runtime W}.
Variable I : W -> Prop.
Variable fuel : nat.
Hypothesis Hsteady : steady I fuel.

Lemma run_calls_begins (n : nat) : forall (t : ProcessThrottler) (w : W),
  I w ->
  map process_count (run_calls fuel (repeat Begin n) t w)
  = map (fun k => (process_count t + Z.of_nat k)%Z) (seq 1 n).
Proof.
  induction n as [|n IH]; intros t w Hw; simpl; [reflexivity|].
  unfold start_process.
  destruct (proj2 Hsteady w Hw) as (w1 & Hwait & Hw1). rewrite Hwait.
  simpl. f_equal.
  rewrite (IH _ w1 Hw1). cbn [process_count].
  rewrite <- (seq_shift n 1), map_map.
  apply map_ext. intros k. lia.
Qed.

End LimiterMore.

(** X15. [start_process] does not look at the budget. In worlds where
    every wait gets through, [n] calls in a row take the counter from
    [c] to [c + 1], ..., [c + n], also past [max_concurrent]; from
    then on [can_start_process] answers false, and it is the caller
    who has to ask it first. *)
Theorem start_process_ignores_budget {W : Type} {RT : Runtime W}
    (I : W -> Prop) (fuel : nat) (n : nat) (t : ProcessThrottler) (w : W) :
  steady I fuel ->
  I w ->
  let counters := map process_count (run_calls fuel (repeat Begin n) t w) in
  counters = map (fun k => (process_count t + Z.of_nat k)%Z) (seq 1 n)
  /\ (forall t' w',
        In t' (run_calls fuel (repeat Begin n) t w) ->
        (max_concurrent t <= process_count t')%Z ->
        fst (can_start_process t' w') = false).
Proof.
  intros Hsteady Hw counters. split.
  - now apply (run_calls_begins I fuel Hsteady).
  - intros t' w' Hin Hover.
    pose proof (run_calls_max_concurrent fuel (repeat Begin n) t w) as Hmax.
    rewrite Forall_forall in Hmax. specialize (Hmax t' Hin).
    unfold can_start_process; simpl.
    destruct (Z.ltb_spec (process_count t') (max_concurrent t')); [lia|reflexivity].
Qed.

Lemma start_process_ignores_budget_witness :
  map process_count
    (run_calls 3 (repeat Begin 4) {| process_count := 0; max_concurrent := 2 |}
       (Sim.world_at 50 []))
  = [1; 2; 3; 4]%Z.
Proof.
  destruct (start_process_ignores_budget (RT := Sim.runtime) Sim.calm 3 4
              {| process_count := 0; max_concurrent := 2 |} (Sim.world_at 50 []))
    as [Hcounters _].
  - apply calm_steady.
  - split; reflexivity.
  - exact Hcounters.
Defined.

(** X16. Every limiter the constructor returns has a budget of at
    least 1 and a counter at 0, whatever core count [psutil] reports
    (also 0 or a negative number), so a fresh limiter admits a process
    exactly when the governor is not throttling; when [psutil] cannot
    tell the core count the constructor raises [TypeError] and there
    is no limiter. *)
Theorem ProcessThrottler_init_budget :
  (forall cpu_count t,
     ProcessThrottler_init cpu_count = Returned t ->
     (1 <= max_concurrent t)%Z
     /\ process_count t = 0%Z
     /\ (exists n, cpu_count = Some n)
     /\ (forall (W : Type) (RT : Runtime W) (w : W),
           fst (can_start_process t w) = negb (throttle_active (manager w))))
  /\ ProcessThrottler_init None = Raised TypeError.
Proof.
  split; [|reflexivity].
  intros [n|] t H; simpl in H; [|discriminate].
  injection H as <-. simpl.
  split; [lia|]. split; [reflexivity|]. split; [eauto|].
  intros W RT w. unfold can_start_process; simpl.
  destruct (Z.ltb_spec 0 (Z.max 1 (n / 2))); [reflexivity | lia].
Qed.

Lemma ProcessThrottler_init_budget_witness :
  exists t,
    ProcessThrottler_init (Some 0%Z) = Returned t
    /\ (1 <= max_concurrent t)%Z
    /\ fst (can_start_process t (Sim.world_at 50 [])) = true.
Proof.
  exists {| process_count := 0; max_concurrent := 1 |}.
  destruct ProcessThrottler_init_budget as [Hinit _].
  destruct (Hinit (Some 0%Z) {| process_count := 0; max_concurrent := 1 |} eq_refl)
    as (Hmax & _ & _ & Hcan).
  split; [reflexivity|]. split; [exact Hmax|].
  rewrite (Hcan Sim.world Sim.runtime). reflexivity.
Defined.

(** ** More on the batch runner *)

(** X17. A batch size in force of 0 makes [throttled_batch_execute]
    raise [ValueError] before anything else happens, also for an empty
    task list; a negative one makes it return the empty list at once.
    In both cases no task is called and the world is left alone. *)
Theorem throttled_batch_execute_bad_batch_size {W : Type} {RT : Runtime W} {R : Type}
    (fuel : nat) (t : ProcessThrottler) (tasks : list (task W R))
    (batch_size : option Z) (w : W) :
  (batch_size_in_force t batch_size = 0%Z ->
   throttled_batch_execute fuel t tasks batch_size w = (Raised ValueError, w))
  /\ ((batch_size_in_force t batch_size < 0)%Z ->
      throttled_batch_execute fuel t tasks batch_size w = (Returned [], w)).
Proof.
  unfold throttled_batch_execute.
  fold (batch_size_in_force t batch_size).
  generalize (batch_size_in_force t batch_size) as b. intros b.
  unfold range_from_zero. split; intros Hb.
  - subst b. reflexivity.
  - destruct (Z.eqb_spec b 0); [lia|].
    destruct (Z.ltb_spec b 0); [reflexivity | lia].
Qed.

Lemma throttled_batch_execute_bad_batch_size_witness :
  let t := {| process_count := 0; max_concurrent := 2 |} in
  throttled_batch_execute 3 t ([] : list (task Sim.world Z)) (Some 0%Z) (Sim.world_at 50 [])
  = (Raised ValueError, Sim.world_at 50 [])
  /\ throttled_batch_execute 3 t [Sim.raising (R := Z) (TaskError 1)] (Some (-3)%Z)
       (Sim.world_at 95 [])
     = (Returned [], Sim.world_at 95 []).
Proof.
  intros t. split.
  - apply (throttled_batch_execute_bad_batch_size (RT := Sim.runtime) 3 t [] (Some 0%Z)).
    reflexivity.
  - apply (throttled_batch_execute_bad_batch_size (RT := Sim.runtime) 3 t
             [Sim.raising (TaskError 1)] (Some (-3)%Z)).
    simpl. lia.
Defined.

(** X18. With a positive batch size in force, an empty task list is
    answered at once with the empty list: there is no batch, so no
    wait, and the call returns even while the governor throttles. With
    a task in the list the first thing is a wait, and while that wait
    is blocked the call is blocked in the wait's world: no task has
    been called. *)
Theorem throttled_batch_execute_empty_or_blocked {W : Type} {RT : Runtime W} {R : Type}
    (fuel : nat) (t : ProcessThrottler) (batch_size : option Z) (w : W) :
  (0 < batch_size_in_force t batch_size)%Z ->
  throttled_batch_execute fuel t ([] : list (task W R)) batch_size w = (Returned [], w)
  /\ (forall (tk : task W R) (tasks : list (task W R)) (w1 : W),
        wait_for_cpu fuel None w = (Blocked, w1) ->
        throttled_batch_execute fuel t (tk :: tasks) batch_size w = (Blocked, w1)).
Proof.
  intros Hb. split.
  - rewrite (throttled_batch_execute_unfold fuel t [] batch_size Hb).
    simpl length. simpl Z.of_nat.
    replace ((0 + batch_size_in_force t batch_size - 1)
               / batch_size_in_force t batch_size)%Z with 0%Z; [reflexivity|].
    symmetry. apply Z.div_small. lia.
  - intros tk tasks w1 Hwait.
    rewrite (throttled_batch_execute_unfold fuel t (tk :: tasks) batch_size Hb).
    pose proof (batches_cover (length (tk :: tasks)) _ Hb) as Hcover.
    destruct (Z.to_nat ((Z.of_nat (length (tk :: tasks))
                         + batch_size_in_force t batch_size - 1)
                        / batch_size_in_force t batch_size)) as [|cnt];
      [simpl in Hcover; lia|].
    rewrite execute_batches_step. unfold bind at 1. now rewrite Hwait.
Qed.

Lemma throttled_batch_execute_empty_or_blocked_witness :
  let t := {| process_count := 0; max_concurrent := 2 |} in
  throttled_batch_execute 0 t ([] : list (task Sim.world Z)) None (Sim.world_at 95 [])
  = (Returned [], Sim.world_at 95 [])
  /\ fst (throttled_batch_execute 2 t [Sim.returning 1%Z] None (Sim.world_at 95 []))
     = Blocked.
Proof.
  intros t.
  destruct (throttled_batch_execute_empty_or_blocked (RT := Sim.runtime) (R := Z)
              0 t None (Sim.world_at 95 []) ltac:(simpl; lia)) as [Hempty _].
  destruct (throttled_batch_execute_empty_or_blocked (RT := Sim.runtime) (R := Z)
              2 t None (Sim.world_at 95 []) ltac:(simpl; lia)) as [_ Hblocked].
  split; [exact Hempty|].
  rewrite (Hblocked (Sim.returning 1%Z) [] (after_passes 2 (Sim.world_at 95 [])));
    [reflexivity|].
  apply wait_for_cpu_blocked.
  intros j Hj. split; [|reflexivity].
  destruct j as [|[|[|j]]]; try reflexivity. lia.
Defined.

Lemma always_returns_task_returns {W R : Type} (I : W -> Prop) (r : R) (tk : task W R) :
  always_returns I r tk -> task_returns I tk.
Proof.
  destruct tk as [call|]; simpl; [|contradiction].
  intros H w Hw. destruct (H w) as (w' & Hcall & HI). exists r, w'. auto.
Qed.

(** X19. The batch size paces the run and nothing more. When each task
    returns its value whatever the world it is called in, every
    positive batch size in force gives the same answer: the list of
    those values, in the order of the tasks. *)
Theorem throttled_batch_execute_any_batch_size {W : Type} {RT : Runtime W} {R : Type}
    (I : W -> Prop) (fuel : nat) (t : ProcessThrottler)
    (tasks : list (task W R)) (values : list R) (batch_size : option Z) (w : W) :
  steady I fuel ->
  I w ->
  (0 < batch_size_in_force t batch_size)%Z ->
  Forall2 (always_returns I) values tasks ->
  fst (throttled_batch_execute fuel t tasks batch_size w) = Returned values.
Proof.
  intros Hsteady Hw Hb Hvals.
  assert (Hall : Forall (task_returns I) tasks).
  { clear -Hvals. induction Hvals; constructor; auto.
    eapply always_returns_task_returns; eauto. }
  destruct (throttled_batch_execute_returns I fuel t tasks batch_size w
              Hsteady Hw Hb Hall) as (results & w' & Hrun & Hprod).
  rewrite Hrun. simpl. f_equal.
  clear -Hvals Hprod. revert results Hprod.
  induction Hvals as [|r tk values tasks Hr _ IH]; intros results Hprod.
  - inversion Hprod. reflexivity.
  - destruct tk as [call|]; [|contradiction]. simpl in Hprod.
    inversion Hprod as [|? r' ? results' Hp Hrest]; subst.
    destruct Hp as (w0 & w0' & Hcall).
    destruct (Hr w0) as (w1 & Hcall1 & _). rewrite Hcall1 in Hcall.
    injection Hcall as <- _. f_equal. now apply IH.
Qed.

Lemma throttled_batch_execute_any_batch_size_witness :
  let t := {| process_count := 0; max_concurrent := 2 |} in
  let tasks := [Sim.returning 1%Z; Sim.returning 2%Z; Sim.returning 3%Z] in
  fst (throttled_batch_execute 3 t tasks (Some 1%Z) (Sim.world_at 50 []))
    = Returned [1; 2; 3]%Z
  /\ fst (throttled_batch_execute 3 t tasks (Some 5%Z) (Sim.world_at 50 []))
     = Returned [1; 2; 3]%Z.
Proof.
  intros t tasks.
  assert (Hvals : Forall2 (always_returns Sim.calm) [1; 2; 3]%Z tasks).
  { repeat constructor; intros w; exists w; auto. }
  split.
  - apply (throttled_batch_execute_any_batch_size (RT := Sim.runtime) Sim.calm 3 t
             tasks [1; 2; 3]%Z (Some 1%Z) (Sim.world_at 50 [])); auto.
    + apply calm_steady.
    + split; reflexivity.
    + simpl. lia.
  - apply (throttled_batch_execute_any_batch_size (RT := Sim.runtime) Sim.calm 3 t
             tasks [1; 2; 3]%Z (Some 5%Z) (Sim.world_at 50 [])); auto.
    + apply calm_steady.
    + split; reflexivity.
    + simpl. lia.
Defined.

(* ===================================================================== *)
(** * A caller: [batch_process_content] *)
(* ===================================================================== *)

Section BatchProcessContentFacts.

Context {W : Type} {RT : Runtime W} {ContentPiece Adapted : Type}.
Variable adapt_content : ContentPiece -> M W Adapted.
Variable print_processed : Z -> Z -> W -> W.
Variable I : W -> Prop.
Variable fuel : nat.
Hypothesis Hsteady : steady I fuel.
Hypothesis Hprint : forall a b w, I w -> I (print_processed a b w).
Hypothesis Hadapt :
  forall c w, I w -> exists a w', adapt_content c w = (Returned a, w') /\ I w'.

Lemma adapt_batch_returns (batch : list ContentPiece) :
  forall (acc : list Adapted) (w : W),
    I w ->
    exists rs w',
      adapt_batch adapt_content batch acc w = (Returned (acc ++ rs), w')
      /\ I w'
      /\ Forall2 (adapted_from adapt_content) batch rs.
Proof.
  induction batch as [|c rest IH]; intros acc w Hw.
  - exists [], w. simpl. rewrite app_nil_r. repeat split; auto; constructor.
  - destruct (Hadapt c w Hw) as (a & w1 & Ha & Hw1).
    destruct (adaptive_sleep_steady I fuel Hsteady 1.0%float w1 Hw1) as (w2 & Hs & Hw2).
    destruct (IH (acc ++ [a]) w2 Hw2) as (rs & w3 & Hrun & Hw3 & Hprod).
    exists (a :: rs), w3.
    cbn [adapt_batch]. unfold bind at 1. rewrite Ha.
    unfold bind at 1. rewrite Hs, Hrun.
    rewrite <- app_assoc. simpl. repeat split; auto.
    constructor; auto. exists w, w1. exact Ha.
Qed.

Variable content_list : list ContentPiece.
Variable b : Z.

Lemma process_batches_returns (cnt : nat) :
  forall (a : nat) (acc : list Adapted) (w : W),
    I w ->
    exists rs w',
      process_batches adapt_content print_processed fuel content_list b
        (multiples (Z.to_nat b) a cnt) acc w
        = (Returned (acc ++ rs), w')
      /\ I w'
      /\ Forall2 (adapted_from adapt_content)
           (firstn (cnt * Z.to_nat b) (skipn (a * Z.to_nat b) content_list)) rs.
Proof.
  induction cnt as [|cnt IH]; intros a acc w Hw.
  - exists [], w. simpl. rewrite app_nil_r. repeat split; auto; constructor.
  - destruct (proj2 Hsteady w Hw) as (w1 & Hwait & Hw1).
    destruct (adapt_batch_returns
                (firstn (Z.to_nat b) (skipn (a * Z.to_nat b) content_list)) acc w1 Hw1)
      as (rs1 & w2 & Hrun1 & Hw2 & Hprod1).
    set (w3 := print_processed
                 (Z.of_nat (a * Z.to_nat b) / b + 1)
                 ((Z.of_nat (length content_list) + b - 1) / b) w2).
    assert (Hw3 : I w3) by now apply Hprint.
    destruct (IH (S a) (acc ++ rs1) w3 Hw3) as (rs2 & w4 & Hrun2 & Hw4 & Hprod2).
    exists (rs1 ++ rs2), w4.
    change (multiples (Z.to_nat b) a (S cnt))
      with ((a * Z.to_nat b)%nat :: multiples (Z.to_nat b) (S a) cnt).
    cbn [process_batches]. unfold slice.
    unfold bind at 1. rewrite Hwait.
    unfold bind at 1. rewrite Hrun1.
    unfold bind at 1. fold w3. rewrite Hrun2.
    rewrite app_assoc. repeat split; auto.
    change (S cnt * Z.to_nat b)%nat with (Z.to_nat b + cnt * Z.to_nat b)%nat.
    rewrite firstn_plus, skipn_plus.
    apply Forall2_app; [exact Hprod1|].
    replace (a * Z.to_nat b + Z.to_nat b)%nat with (S a * Z.to_nat b)%nat by (simpl; lia).
    exact Hprod2.
Qed.

End BatchProcessContentFacts.

(** X20. [batch_process_content] with the limiter the constructor made
    (its budget, the batch size used, is at least 1): in worlds where
    every wait gets through, where the progress print changes nothing
    that matters and where [adapt_content] returns, it returns one
    adapted piece per content piece, the [i]-th being what
    [adapt_content] returned on the [i]-th piece; an empty list gives
    an empty list. *)
Theorem batch_process_content_in_order
    {W : Type} {RT : Runtime W} {ContentPiece Adapted : Type}
    (adapt_content : ContentPiece -> M W Adapted)
    (print_processed : Z -> Z -> W -> W)
    (I : W -> Prop) (fuel : nat)
    (cpu_count : option Z) (t : ProcessThrottler)
    (content_list : list ContentPiece) (w : W) :
  steady I fuel ->
  (forall a b w, I w -> I (print_processed a b w)) ->
  (forall c w, I w -> exists a w', adapt_content c w = (Returned a, w') /\ I w') ->
  ProcessThrottler_init cpu_count = Returned t ->
  I w ->
  exists results w',
    batch_process_content adapt_content print_processed fuel t content_list w
      = (Returned results, w')
    /\ length results = length content_list
    /\ Forall2 (adapted_from adapt_content) content_list results.
Proof.
  intros Hsteady Hprint Hadapt Hinit Hw.
  assert (Hb : (0 < max_concurrent t)%Z).
  { destruct cpu_count as [n|]; simpl in Hinit; [|discriminate].
    injection Hinit as <-. simpl. lia. }
  unfold batch_process_content.
  rewrite (range_from_zero_positive _ _ Hb).
  destruct (process_batches_returns adapt_content print_processed I fuel
              Hsteady Hprint Hadapt content_list (max_concurrent t)
              (Z.to_nat ((Z.of_nat (length content_list) + max_concurrent t - 1)
                         / max_concurrent t)) 0 [] w Hw)
    as (rs & w' & Hrun & _ & Hprod).
  exists rs, w'. split; [exact Hrun|].
  simpl skipn in Hprod.
  rewrite firstn_all2 in Hprod by now apply batches_cover.
  split; [symmetry; eapply Forall2_length; exact Hprod | exact Hprod].
Qed.

Lemma batch_process_content_in_order_witness :
  let adapt_content : Z -> M Sim.world Z := fun c w => (Returned (c * 10)%Z, w) in
  let print_processed : Z -> Z -> Sim.world -> Sim.world := fun _ _ w => w in
  exists results w',
    batch_process_content adapt_content print_processed 3
      {| process_count := 0; max_concurrent := 2 |} [1; 2; 3]%Z (Sim.world_at 50 [])
      = (Returned results, w')
    /\ length results = 3%nat
    /\ Forall2 (adapted_from adapt_content) [1; 2; 3]%Z results.
Proof.
  intros adapt_content print_processed.
  apply (batch_process_content_in_order (RT := Sim.runtime) adapt_content print_processed
           Sim.calm 3 (Some 4%Z)).
  - apply calm_steady.
  - intros a b w Hw. exact Hw.
  - intros c w Hw. exists (c * 10)%Z, w. split; [reflexivity | exact Hw].
  - reflexivity.
  - split; reflexivity.
Defined.

Example batch_process_content_three_pieces :
  fst (batch_process_content (fun c w => (Returned (c * 10)%Z, w)) (fun _ _ w => w) 3
         {| process_count := 0; max_concurrent := 2 |} [1; 2; 3]%Z (Sim.world_at 50 []))
  = Returned [10; 20; 30]%Z.
Proof. reflexivity. Qed.

(* ===================================================================== *)
(** * The wait with a deadline, and the wait against the monitor *)
(* ===================================================================== *)

(** X21. With a timeout that is a truthy number the deadline works as
    documented. Let the wait be throttled and short of the deadline at
    its first [k] tests. If the flag is off at the next test the call
    returns [True]; if the flag is still on and the time waited has
    reached the timeout it returns [False]. It returns from that test,
    having slept [k] times. *)
Theorem wait_for_cpu_truthy_timeout {W : Type} {RT : Runtime W}
    (t : float) (k fuel : nat) (w : W) :
  PyFloat.truthy t = true ->
  (k <= fuel)%nat ->
  (forall j, (j < k)%nat ->
     throttle_active (manager (after_passes j w)) = true
     /\ PyFloat.ge (time_time (after_passes j w) - time_time w)%float t = false) ->
  (throttle_active (manager (after_passes k w)) = false ->
   wait_for_cpu fuel (Some t) w = (Returned true, after_passes k w))
  /\ (throttle_active (manager (after_passes k w)) = true ->
      PyFloat.ge (time_time (after_passes k w) - time_time w)%float t = true ->
      wait_for_cpu fuel (Some t) w = (Returned false, after_passes k w)).
Proof.
  intros Htruthy Hk Hbefore.
  assert (Hheld : held_back (Some t) (time_time w) k w).
  { intros j Hj. destruct (Hbefore j Hj) as [Hth Hge]. split; [exact Hth|].
    unfold timed_out. now rewrite Htruthy, Hge. }
  split.
  - intros Hclear. unfold wait_for_cpu.
    rewrite (wait_loop_runs _ _ k fuel w Hheld Hk).
    now apply wait_loop_clear.
  - intros Hth Hge. unfold wait_for_cpu.
    rewrite (wait_loop_runs _ _ k fuel w Hheld Hk).
    apply wait_loop_timed_out; [exact Hth|].
    unfold timed_out. now rewrite Htruthy, Hge.
Qed.

Lemma wait_for_cpu_truthy_timeout_witness :
  wait_for_cpu 5 (Some 1.5%float) (Sim.world_at 95 [])
  = (Returned false, after_passes 2 (Sim.world_at 95 [])).
Proof.
  destruct (wait_for_cpu_truthy_timeout (RT := Sim.runtime) 1.5%float 2 5
              (Sim.world_at 95 [])) as [_ Hfalse].
  - reflexivity.
  - lia.
  - intros j Hj. destruct j as [|[|j]]; [split; reflexivity | split; reflexivity | lia].
  - apply Hfalse; reflexivity.
Defined.

Lemma low_reading_pass (x : float) (rest : list Monitor.input) (w : Sim.world) :
  monitoring (Sim.mgr w) = true ->
  Sim.pending w = Monitor.CpuPercent x :: rest ->
  let w' := wait_pass w in
  Sim.mgr w' = fst (Monitor.iteration x (Sim.mgr w))
  /\ Sim.pending w' = rest
  /\ length (Sim.slept w') = S (length (Sim.slept w)).
Proof.
  intros Hmon Hp. unfold wait_pass; simpl.
  unfold Sim.sleep_in, Sim.monitor_turn, Sim.log_in; simpl.
  rewrite Hp. simpl. rewrite Hmon. simpl.
  destruct (Monitor.iteration x (Sim.mgr w)) as [m' fx] eqn:Hit. simpl.
  pose proof (iteration_fields x (Sim.mgr w)) as F. rewrite Hit in F. simpl in F.
  destruct F as (_ & _ & _ & Hm' & _). rewrite Hmon in Hm'. rewrite Hm'. simpl.
  rewrite length_app. simpl. repeat split; auto. lia.
Qed.

Lemma wait_loop_after_low_reading (start : float) (highs : list float) :
  forall (x : float) (rest : list Monitor.input) (w : Sim.world) (fuel : nat),
    monitoring (Sim.mgr w) = true ->
    throttle_active (Sim.mgr w) = true ->
    Sim.pending w = map Monitor.CpuPercent highs ++ Monitor.CpuPercent x :: rest ->
    forallb (fun h => PyFloat.ge h (max_cpu_percent (Sim.mgr w))) highs = true ->
    PyFloat.ge x (max_cpu_percent (Sim.mgr w)) = false ->
    (length highs < fuel)%nat ->
    let r := wait_loop fuel None start w in
    fst r = Returned true
    /\ length (Sim.slept (snd r)) = (length (Sim.slept w) + S (length highs))%nat
    /\ current_cpu_usage (Sim.mgr (snd r)) = x
    /\ throttle_active (Sim.mgr (snd r)) = false
    /\ Sim.pending (snd r) = rest.
Proof.
  induction highs as [|h highs IH];
    intros x rest w fuel Hmon Hthr Hp Hhigh Hlow Hfuel;
    (destruct fuel as [|fuel]; [simpl in Hfuel; lia|]);
    rewrite (wait_loop_pass (RT := Sim.runtime) fuel None start w Hthr eq_refl).
  - destruct (low_reading_pass x rest w Hmon Hp) as (Hm & Hp' & Hs).
    pose proof (iteration_fields x (Sim.mgr w)) as (Hc & _ & _ & _ & Ht).
    rewrite Hlow in Ht.
    assert (Hclear : throttle_active (Sim.mgr (wait_pass w)) = false)
      by now rewrite Hm.
    rewrite (wait_loop_clear (RT := Sim.runtime) fuel None start (wait_pass w) Hclear).
    cbn [fst snd]. rewrite Hm, Hs, Hp'. repeat split; auto. simpl. lia.
  - simpl in Hhigh. apply andb_prop in Hhigh. destruct Hhigh as [Hh Hhighs].
    destruct (low_reading_pass h (map Monitor.CpuPercent highs
                                    ++ Monitor.CpuPercent x :: rest) w Hmon Hp)
      as (Hm & Hp' & Hs).
    pose proof (iteration_fields h (Sim.mgr w)) as (_ & Hmx & _ & Hmo & Ht).
    rewrite Hh in Ht. rewrite Hmon in Hmo. rewrite <- Hm in Hmx, Hmo, Ht.
    destruct (IH x rest (wait_pass w) fuel Hmo Ht Hp') as (Hr & Hl & Hc & Hf & Hrest).
    + now rewrite Hmx.
    + now rewrite Hmx.
    + simpl in Hfuel. lia.
    + repeat split; auto.
      rewrite Hl, Hs. simpl. lia.
Qed.

(** X22. The wait against the monitor thread, in the scripted world
    (the monitor completes one iteration per sleep of the caller). A
    wait without timeout on a throttling governor whose monitor reads
    some readings at or above the ceiling and then one below it
    returns [True] right after that reading: it has slept once per
    reading, the governor holds the low reading with the flag off, and
    the readings after it are still ahead of the monitor. *)
Theorem wait_for_cpu_returns_after_low_reading
    (highs : list float) (x : float) (rest : list Monitor.input)
    (w : Sim.world) (fuel : nat) :
  monitoring (Sim.mgr w) = true ->
  throttle_active (Sim.mgr w) = true ->
  Sim.pending w = map Monitor.CpuPercent highs ++ Monitor.CpuPercent x :: rest ->
  forallb (fun h => PyFloat.ge h (max_cpu_percent (Sim.mgr w))) highs = true ->
  PyFloat.ge x (max_cpu_percent (Sim.mgr w)) = false ->
  (length highs < fuel)%nat ->
  let r := wait_for_cpu fuel None w in
  fst r = Returned true
  /\ length (Sim.slept (snd r)) = (length (Sim.slept w) + S (length highs))%nat
  /\ current_cpu_usage (Sim.mgr (snd r)) = x
  /\ throttle_active (Sim.mgr (snd r)) = false
  /\ Sim.pending (snd r) = rest.
Proof.
  intros. unfold wait_for_cpu.
  now apply wait_loop_after_low_reading.
Qed.

Lemma wait_for_cpu_returns_after_low_reading_witness :
  let r := wait_for_cpu 5 None
             (Sim.world_at 85 [Monitor.CpuPercent 90; Monitor.CpuPercent 85;
                               Monitor.CpuPercent 60; Monitor.CpuPercent 99]) in
  fst r = Returned true
  /\ length (Sim.slept (snd r)) = 3%nat
  /\ current_cpu_usage (Sim.mgr (snd r)) = 60%float
  /\ throttle_active (Sim.mgr (snd r)) = false
  /\ Sim.pending (snd r) = [Monitor.CpuPercent 99].
Proof.
  apply (wait_for_cpu_returns_after_low_reading [90; 85]%float 60%float
           [Monitor.CpuPercent 99]
           (Sim.world_at 85 [Monitor.CpuPercent 90; Monitor.CpuPercent 85;
                             Monitor.CpuPercent 60; Monitor.CpuPercent 99]) 5);
    try reflexivity.
  simpl. lia.
Defined.
